(** * kingworld-oauth2: the OAuth2 plugin of [src/index.ts]

    A shallow embedding of the plugin: its configuration and defaults, the
    URI helpers, the provider resolver, the three route handlers (login,
    authorized, logout) and the three per-request capabilities
    ([authorized], [profiles], [tokenHeaders]).

    The handlers talk to collaborators the plugin does not own: the CSRF
    state store, the token storage, [fetch] and the clock.  They are
    embedded as functions over an arbitrary outside world [W]; every call
    the plugin makes to a store or to [fetch] is appended to a log, so that
    "is never called" and "is called with this record" are statements about
    that log. *)

From Stdlib Require Import ZArith QArith String Ascii List DecimalString.
From stdpp Require Import base option list gmap strings.

Open Scope string_scope.
Open Scope list_scope.

(** ** The JavaScript the plugin relies on *)

Module Js.

(** JavaScript numbers.  The source warns that "numbers may contain
    floating points"; they are idealised here as exact rationals. *)
Abbreviation number := Q (only parsing).

(** What a [throw] carries. *)
Inductive Exn : Type :=
| Error (message : string)
| TypeError (message : string)
| SyntaxError (message : string).

(** The completion of a call: a value, or an exception (for an [async]
    function, a rejection). *)
Inductive Result (A : Type) : Type :=
| Ok (a : A)
| Throw (e : Exn).
Arguments Ok {A} a.
Arguments Throw {A} e.

(** [s.startsWith(p)] *)
Definition startsWith (s p : string) : bool := String.prefix p s.

(** The replacement text of [String.prototype.replace] when the pattern
    is a string: there are no captures, so [$$], [$&], [$`] and [$'] are
    the only patterns that are expanded. *)
Fixpoint GetSubstitution (matched before after template : string) : string :=
  match template with
  | EmptyString => EmptyString
  | String c rest =>
      if Ascii.eqb c "$" then
        match rest with
        | EmptyString => String c EmptyString
        | String d rest' =>
            if Ascii.eqb d "$" then
              String "$" (GetSubstitution matched before after rest')
            else if Ascii.eqb d "&" then
              matched +:+ GetSubstitution matched before after rest'
            else if Ascii.eqb d "`" then
              before +:+ GetSubstitution matched before after rest'
            else if Ascii.eqb d "'" then
              after +:+ GetSubstitution matched before after rest'
            else String c (GetSubstitution matched before after rest)
        end
      else String c (GetSubstitution matched before after rest)
  end.

(** [s.replace(pattern, replacement)] with a string pattern: only the
    first occurrence is replaced. *)
Definition replace (s pattern replacement : string) : string :=
  match String.index 0 pattern s with
  | None => s
  | Some pos =>
      let before := String.substring 0 pos s in
      let stop := (pos + String.length pattern)%nat in
      let after := String.substring stop (String.length s - stop) s in
      before +:+ GetSubstitution pattern before after replacement +:+ after
  end.

(** [`${n}`] for a non-negative integer. *)
Definition Number_toString (n : N) : string :=
  NilZero.string_of_uint (N.to_uint n).

(** [!s] for an optional string: [undefined] and [''] are falsy. *)
Definition falsy (s : option string) : bool :=
  match s with
  | None => true
  | Some s' => if decide (s' = "") then true else false
  end.

(** The property names every ordinary object inherits from
    [Object.prototype]. *)
Definition Object_prototype_keys : list string :=
  [ "constructor"; "__defineGetter__"; "__defineSetter__"; "hasOwnProperty";
    "__lookupGetter__"; "__lookupSetter__"; "isPrototypeOf";
    "propertyIsEnumerable"; "toString"; "valueOf"; "__proto__";
    "toLocaleString" ].

(** A property read [o[key]] on an object written as a literal: an own
    property, a member inherited from [Object.prototype], or
    [undefined]. *)
Inductive Property (A : Type) : Type :=
| Own (a : A)
| Inherited
| Undefined.
Arguments Own {A} a.
Arguments Inherited {A}.
Arguments Undefined {A}.

(** [key in o]: own and inherited properties both count. *)
Definition has_property {A} (o : gmap string A) (key : string) : bool :=
  bool_decide (is_Some (o !! key)) || bool_decide (key ∈ Object_prototype_keys).

(** [o[key]] *)
Definition get_property {A} (o : gmap string A) (key : string) : Property A :=
  match o !! key with
  | Some a => Own a
  | None =>
      if bool_decide (key ∈ Object_prototype_keys) then Inherited else Undefined
  end.

(** [Object.keys(o)]: the own enumerable keys. *)
Definition Object_keys {A} (o : gmap string A) : list string :=
  (map_to_list o).*1.

(** An object that starts as [{}] and is filled by assignments
    [o[key] = value]: its own properties, and the value its prototype has
    been replaced with ([None]: it is still [Object.prototype]). *)
Record Assigned (A : Type) : Type := {
  own : gmap string A;
  prototype : option A
}.
Arguments own {A} _.
Arguments prototype {A} _.

(** [{}] *)
Definition empty_object {A : Type} : Assigned A :=
  {| own := ∅; prototype := None |}.

(** [o[key] = value], for a value that is an object.  The key [__proto__]
    reaches the accessor inherited from [Object.prototype], whose setter
    replaces the prototype of [o] and creates no own property; any other
    key creates or overwrites an own property. *)
Definition assign {A : Type} (o : Assigned A) (key : string) (value : A)
  : Assigned A :=
  if decide (key = "__proto__")
  then {| own := own o; prototype := Some value |}
  else {| own := <[key := value]> (own o); prototype := prototype o |}.

End Js.

Import Js.

(** ** Data model (the type declarations of [src/index.ts]) *)

(** A value of [TUrlParams]: [string | number | boolean]; a query
    parameter that is missing from the callback reads as [undefined]. *)
Inductive UrlParam : Type :=
| PString (s : string)
| PNumber (n : number)
| PBoolean (b : bool)
| PUndefined.

Abbreviation TUrlParams := (gmap string UrlParam).

Record TOAuth2Url : Type := {
  url : string;
  params : TUrlParams
}.

Record TOAuth2Provider : Type := {
  auth : TOAuth2Url;
  token : TOAuth2Url;
  clientId : string;
  clientSecret : string
}.

Definition TOAuth2Scope : Type := list string.

Record TOAuth2Profile : Type := {
  scope : TOAuth2Scope;
  provider : TOAuth2Provider
}.

(** The access token as it is kept in the storage. *)
Module AccessToken.
Record TOAuth2AccessToken : Type := {
  token_type : string;
  scope : string;
  expires_in : number;
  access_token : string;
  created_at : number
}.
End AccessToken.
Abbreviation TOAuth2AccessToken := AccessToken.TOAuth2AccessToken.

(** The token endpoint's JSON body, before the handler has filled in its
    defaults: the value [response.json()] resolves to, which the source
    casts to [TOAuth2AccessToken].  [expires_in] may be missing or null
    (the source's [??]), and whatever [created_at] the provider sent is
    still there. *)
Module TokenJson.
Record t : Type := {
  token_type : string;
  scope : string;
  expires_in : option number;
  access_token : string;
  created_at : option number
}.
End TokenJson.

(** What a route handler answers with: the fields of
    [new Response(body, { status, statusText, headers })]. *)
Record Response : Type := {
  body : string;
  status : N;
  statusText : string;
  headers : list (string * string)
}.

(** What [fetch] resolves to, through the views the plugin uses:
    [status], [statusText], [headers.get('Content-Type')], [text()] and
    [json()] ([None]: the body does not parse). *)
Module Fetched.
Record t : Type := {
  status : N;
  statusText : string;
  content_type : option string;
  text : string;
  json : option TokenJson.t
}.

(** [response.ok]: the status is in the range 200-299. *)
Definition ok (r : t) : bool := (200 <=? status r)%N && (status r <=? 299)%N.
End Fetched.

(** The second argument of [fetch].  [init_body] holds the entries handed
    to [URLSearchParams], whose [toString()] is the body on the wire. *)
Record RequestInit : Type := {
  method : string;
  init_headers : list (string * string);
  init_body : TUrlParams
}.

(** ** The pluggable collaborators

    Each operation acts on the outside world [W] and may fail.
    [Storage.set] is called without [await]: of its completion the handler
    sees only an exception thrown by the call itself, a promise that
    rejects later is [Ok] here. *)

Module OAuth2State.
Record t (Request W : Type) : Type := {
  generate : Request -> string -> W -> Result string * W;
  check : Request -> string -> option string -> W -> Result bool * W
}.
Arguments generate {Request W} _ _ _ _.
Arguments check {Request W} _ _ _ _ _.
End OAuth2State.

Module Storage.
Record t (Request W : Type) : Type := {
  set : Request -> string -> TOAuth2AccessToken -> W -> Result unit * W;
  get : Request -> string -> W -> Result (option TOAuth2AccessToken) * W;
  delete : Request -> string -> W -> Result unit * W
}.
Arguments set {Request W} _ _ _ _ _.
Arguments get {Request W} _ _ _ _.
Arguments delete {Request W} _ _ _ _.
End Storage.

(** [fetch] and [Date.now()] (milliseconds since the epoch). *)
Module Platform.
Record t (W : Type) : Type := {
  fetch : string -> RequestInit -> W -> Result Fetched.t * W;
  Date_now : W -> Z
}.
Arguments fetch {W} _ _ _ _.
Arguments Date_now {W} _ _.
End Platform.

(** The argument of [oauth2]. *)
Module Params.
Record TPluginParams (Request W : Type) : Type := {
  profiles : gmap string TOAuth2Profile;
  login : option string;
  authorized : option string;
  logout : option string;
  host : option string;
  redirectTo : option string;
  state : OAuth2State.t Request W;
  storage : Storage.t Request W
}.
Arguments profiles {Request W} _.
Arguments login {Request W} _.
Arguments authorized {Request W} _.
Arguments logout {Request W} _.
Arguments host {Request W} _.
Arguments redirectTo {Request W} _.
Arguments state {Request W} _.
Arguments storage {Request W} _.
End Params.
Abbreviation TPluginParams := Params.TPluginParams.

(** The argument of a route handler: [req.request], [req.params.name] and
    [req.query]. *)
Record TProviderContext (Request : Type) : Type := {
  request : Request;
  params_name : string;
  query : gmap string string
}.
Arguments request {Request} _.
Arguments params_name {Request} _.
Arguments query {Request} _.

(** One entry of [OAuth2ProfileUrlMap]. *)
Module ProfileUrl.
Record t : Type := {
  login : string;
  logout : string
}.
End ProfileUrl.

(** The calls the plugin makes to its collaborators, with their
    arguments. *)
Inductive Call (Request : Type) : Type :=
| state_generate (req : Request) (name : string)
| state_check (req : Request) (name : string) (callbackState : option string)
| storage_set (req : Request) (name : string) (token : TOAuth2AccessToken)
| storage_get (req : Request) (name : string)
| storage_delete (req : Request) (name : string)
| platform_fetch (resource : string) (init : RequestInit).
Arguments state_generate {Request} _ _.
Arguments state_check {Request} _ _ _.
Arguments storage_set {Request} _ _ _.
Arguments storage_get {Request} _ _.
Arguments storage_delete {Request} _ _.
Arguments platform_fetch {Request} _ _.

(** The world a handler runs in: the outside world and the log of the
    calls made so far, oldest first. *)
Record World (Request W : Type) : Type := {
  outside : W;
  calls : list (Call Request)
}.
Arguments outside {Request W} _.
Arguments calls {Request W} _.

(** [{ ...a, ...b }]: the entries of [b] win. *)
Definition spread (a b : TUrlParams) : TUrlParams := b ∪ a.

(** [a < b] on numbers *)
Definition number_lt (a b : number) : bool :=
  match (a ?= b)%Q with
  | Lt => true
  | _ => false
  end.

(** ** The plugin *)

Section Plugin.

Context {Request W : Type}.
Variable cfg : TPluginParams Request W.
Variable platform : Platform.t W.

(** [buildUrl] and [redirect] are imported from [./utils], which is not
    part of [src/index.ts]: the plugin is embedded for any two such
    functions. *)
Variable buildUrl : string -> TUrlParams -> option TOAuth2Scope -> string.
Variable redirect : string -> Response.

(** *** A monad for the effects: state, exceptions and the call log *)

Definition M (A : Type) : Type :=
  World Request W -> Result A * World Request W.

#[local] Instance M_ret : MRet M := fun A a w => (Ok a, w).

#[local] Instance M_bind : MBind M := fun A B f m w =>
  match m w with
  | (Ok a, w') => f a w'
  | (Throw e, w') => (Throw e, w')
  end.

Definition throw {A : Type} (e : Exn) : M A := fun w => (Throw e, w).

(** A logged call to a collaborator. *)
Definition call {A : Type} (c : Call Request) (f : W -> Result A * W) : M A :=
  fun w =>
    let '(r, o) := f (outside w) in
    (r, {| outside := o; calls := calls w ++ [c] |}).

(** [Date.now()] *)
Definition Date_now : M Z :=
  fun w => (Ok (Platform.Date_now platform (outside w)), w).

(** [o.field] where [o] may be [undefined] *)
Definition member {A B : Type} (o : option A) (field : A -> B) (expr : string) : M B :=
  match o with
  | Some a => mret (field a)
  | None => throw (TypeError expr)
  end.

(** *** Defaults (lines 160-180) *)

Definition globalProfiles : gmap string TOAuth2Profile := Params.profiles cfg.

Definition or_default (given : option string) (default : string) : string :=
  if falsy given then default else from_option id default given.

Definition login : string := or_default (Params.login cfg) "/login/:name".
Definition authorized : string :=
  or_default (Params.authorized cfg) "/login/:name/authorized".
Definition logout : string := or_default (Params.logout cfg) "/logout/:name".
Definition host : string := or_default (Params.host cfg) "localhost:3000".
Definition redirectTo : string := or_default (Params.redirectTo cfg) "/".

Definition protocol : string :=
  if startsWith host "localhost" then "http" else "https".

(** *** The resolver and the URI helpers (lines 182-206) *)

(** [resolveProvider] answers with a [Response], or with whatever the
    property read [globalProfiles[name]] gives. *)
Inductive Resolved : Type :=
| AResponse (r : Response)
| AValue (v : Property TOAuth2Profile).

Definition NotFound : Response :=
  {| body := ""; status := 404; statusText := "Not Found"; headers := [] |}.

Definition resolveProvider (name : string) : Resolved :=
  if negb (has_property globalProfiles name) then AResponse NotFound
  else AValue (get_property globalProfiles name).

Definition buildUri (template name : string) (external : bool) : string :=
  let uri := replace template ":name" name in
  if external then protocol +:+ "://" +:+ host +:+ uri else uri.

Definition buildLoginUri (name : string) (external : bool) : string :=
  buildUri login name external.

Definition buildLogoutUri (name : string) (external : bool) : string :=
  buildUri logout name external.

Definition buildRedirectUri (name : string) : string :=
  buildUri authorized name true.

(** [const { provider, scope } = context]: destructuring [undefined]
    throws; an inherited member has neither property. *)
Definition destructure (context : Property TOAuth2Profile)
  : M (option TOAuth2Provider * option TOAuth2Scope) :=
  match context with
  | Own p => mret (Some (provider p), Some (scope p))
  | Inherited => mret (None, None)
  | Undefined => throw (TypeError "context")
  end.

(** *** The login handler (lines 210-235) *)

Definition authParams (client_id client_secret redirect_uri state : string)
  : TUrlParams :=
  list_to_map
    [ ("client_id", PString client_id);
      ("client_secret", PString client_secret);
      ("redirect_uri", PString redirect_uri);
      ("response_type", PString "code");
      ("response_mode", PString "query");
      ("state", PString state) ].

Definition login_handler (req : TProviderContext Request) : M Response :=
  match resolveProvider (params_name req) with
  | AResponse r => mret r
  | AValue context =>
      '(provider, scope) ← destructure context;
      client_id ← member provider clientId "provider.clientId";
      client_secret ← member provider clientSecret "provider.clientSecret";
      let redirect_uri := buildRedirectUri (params_name req) in
      state ← call (state_generate (request req) (params_name req))
                (OAuth2State.generate (Params.state cfg) (request req) (params_name req));
      auth ← member provider auth "provider.auth";
      let authUrl :=
        buildUrl (url auth)
          (spread (authParams client_id client_secret redirect_uri state) (params auth))
          scope in
      mret (redirect authUrl)
  end.

(** *** The authorized handler (lines 238-296) *)

(** [req.query.code] as a parameter value: a missing one is [undefined]. *)
Definition query_param (v : option string) : UrlParam :=
  match v with
  | Some s => PString s
  | None => PUndefined
  end.

Definition tokenParams (client_id client_secret redirect_uri : string)
    (code : option string) : TUrlParams :=
  list_to_map
    [ ("client_id", PString client_id);
      ("client_secret", PString client_secret);
      ("redirect_uri", PString redirect_uri);
      ("grant_type", PString "authorization_code");
      ("code", query_param code) ].

Definition token_request (params : TUrlParams) : RequestInit :=
  {| method := "POST";
     init_headers :=
       [ ("Content-Type", "application/x-www-form-urlencoded");
         ("Accept", "application/json") ];
     init_body := params |}.

(** [response.headers.get('Content-Type')?.startsWith('application/json')],
    as a condition: a missing header gives [undefined], which is falsy. *)
Definition content_type_is_json (response : Fetched.t) : bool :=
  match Fetched.content_type response with
  | Some ct => startsWith ct "application/json"
  | None => false
  end.

(** The condition of line 278. *)
Definition exchange_failed (response : Fetched.t) : bool :=
  negb (Fetched.ok response) || negb (content_type_is_json response).

(** [`${response.status}: ${response.statusText}: ${await response.text()}`] *)
Definition exchange_error (response : Fetched.t) : string :=
  Number_toString (Fetched.status response) +:+ ": " +:+
  Fetched.statusText response +:+ ": " +:+ Fetched.text response.

(** [await response.json()] *)
Definition response_json (response : Fetched.t) : M TokenJson.t :=
  match Fetched.json response with
  | Some token => mret token
  | None => throw (SyntaxError "JSON Parse error")
  end.

(** Lines 290-291: [expires_in] defaults to 3600, [created_at] is
    overwritten with [Date.now() / 1000]. *)
Definition stamp (token : TokenJson.t) (now : Z) : TOAuth2AccessToken :=
  {| AccessToken.token_type := TokenJson.token_type token;
     AccessToken.scope := TokenJson.scope token;
     AccessToken.expires_in := default 3600%Q (TokenJson.expires_in token);
     AccessToken.access_token := TokenJson.access_token token;
     AccessToken.created_at := (inject_Z now / 1000)%Q |}.

Definition authorized_handler (req : TProviderContext Request) : M Response :=
  match resolveProvider (params_name req) with
  | AResponse r => mret r
  | AValue context =>
      '(provider, _) ← destructure context;
      let code := query req !! "code" in
      let callbackState := query req !! "state" in
      matches ← call (state_check (request req) (params_name req) callbackState)
                  (OAuth2State.check (Params.state cfg) (request req) (params_name req)
                     callbackState);
      if negb matches then throw (Error "State missmatch")
      else
        client_id ← member provider clientId "provider.clientId";
        client_secret ← member provider clientSecret "provider.clientSecret";
        let redirect_uri := buildRedirectUri (params_name req) in
        token ← member provider token "provider.token";
        let params :=
          spread (tokenParams client_id client_secret redirect_uri code) (params token) in
        response ← call (platform_fetch (url token) (token_request params))
                     (Platform.fetch platform (url token) (token_request params));
        if exchange_failed response then throw (Error (exchange_error response))
        else
          json ← response_json response;
          now ← Date_now;
          let token := stamp json now in
          _ ← call (storage_set (request req) (params_name req) token)
                (Storage.set (Params.storage cfg) (request req) (params_name req)
                   token);
          mret (redirect redirectTo)
  end.

(** *** The logout handler (lines 299-309) *)

Definition logout_handler (req : TProviderContext Request) : M Response :=
  match resolveProvider (params_name req) with
  | AResponse r => mret r
  | AValue _ =>
      _ ← call (storage_delete (request req) (params_name req))
            (Storage.delete (Params.storage cfg) (request req) (params_name req));
      mret (redirect redirectTo)
  end.

(** *** The capabilities added to the request context (lines 311-348) *)

(** Modelled from the spec: [isTokenValid] of [./utils], which is not among
    the sources.  "Absent -> false.  Present -> true iff
    [now < createdAt + expiresIn], evaluated at call time using a
    real-time clock"; times are in seconds. *)
Definition isTokenValid (token : option TOAuth2AccessToken) : M bool :=
  match token with
  | None => mret false
  | Some t =>
      now ← Date_now;
      mret (number_lt (inject_Z now / 1000)%Q
              (AccessToken.created_at t + AccessToken.expires_in t)%Q)
  end.

(** [ctx.authorized(...profiles)] *)
Fixpoint ctx_authorized (request : Request) (profiles : list string) : M bool :=
  match profiles with
  | [] => mret true
  | profile :: rest =>
      token ← call (storage_get request profile)
                (Storage.get (Params.storage cfg) request profile);
      valid ← isTokenValid token;
      if negb valid then mret false else ctx_authorized request rest
  end.

(** [ctx.profiles(...profiles)] *)
Definition ctx_profiles (profiles : list string) : M (Assigned ProfileUrl.t) :=
  let profiles :=
    if decide (length profiles = 0%nat) then Object_keys globalProfiles
    else profiles in
  mret (fold_left
          (fun result profile =>
             assign result profile
               {| ProfileUrl.login := buildLoginUri profile true;
                  ProfileUrl.logout := buildLogoutUri profile true |})
          profiles empty_object).

(** [ctx.tokenHeaders(profile)]: the value of the [Authorization] header. *)
Definition ctx_tokenHeaders (request : Request) (profile : string) : M string :=
  token ← call (storage_get request profile)
            (Storage.get (Params.storage cfg) request profile);
  mret ("Bearer " +:+
        match token with
        | Some t => AccessToken.access_token t
        | None => "undefined"
        end).

(** *** The parameter objects the handlers send, for a configured profile *)

(** [{ ...authParams, ...provider.auth.params }] (line 230) *)
Definition login_query (p : TOAuth2Profile) (name state : string) : TUrlParams :=
  spread
    (authParams (clientId (provider p)) (clientSecret (provider p))
       (buildRedirectUri name) state)
    (params (auth (provider p))).

(** [{ ...tokenParams, ...provider.token.params }] (lines 264-267) *)
Definition token_body (p : TOAuth2Profile) (name : string) (code : option string)
  : TUrlParams :=
  spread
    (tokenParams (clientId (provider p)) (clientSecret (provider p))
       (buildRedirectUri name) code)
    (params (token (provider p))).

End Plugin.

(** ** A small in-memory environment

    A state store that remembers the one state it issued, a token storage
    backed by a map, a token endpoint that always answers with the same
    response, and a clock.  It is used to run the handlers on concrete
    requests. *)

Module Demo.

Record W : Type := {
  tokens : gmap string TOAuth2AccessToken;
  issued : option string;
  endpoint : Fetched.t;
  clock : Z
}.

Definition state : OAuth2State.t unit W :=
  {| OAuth2State.generate := fun _ name w =>
       (Ok ("state-" +:+ name),
        {| tokens := tokens w; issued := Some ("state-" +:+ name);
           endpoint := endpoint w; clock := clock w |});
     OAuth2State.check := fun _ _ candidate w =>
       (Ok (bool_decide (is_Some candidate ∧ candidate = issued w)),
        {| tokens := tokens w; issued := None;
           endpoint := endpoint w; clock := clock w |}) |}.

Definition storage : Storage.t unit W :=
  {| Storage.set := fun _ name token w =>
       (Ok (),
        {| tokens := <[name := token]> (tokens w); issued := issued w;
           endpoint := endpoint w; clock := clock w |});
     Storage.get := fun _ name w => (Ok (tokens w !! name), w);
     Storage.delete := fun _ name w =>
       (Ok (),
        {| tokens := delete name (tokens w); issued := issued w;
           endpoint := endpoint w; clock := clock w |}) |}.

Definition platform : Platform.t W :=
  {| Platform.fetch := fun _ _ w => (Ok (endpoint w), w);
     Platform.Date_now := clock |}.

(** A stand-in for [redirect] of [./utils]. *)
Definition redirect (location : string) : Response :=
  {| body := ""; status := 302; statusText := "Found";
     headers := [("Location", location)] |}.

(** A stand-in for [buildUrl] of [./utils]; the query string is left out. *)
Definition buildUrl (base : string) (_ : TUrlParams) (_ : option TOAuth2Scope)
  : string := base.

Definition demo_provider : TOAuth2Provider :=
  {| auth := {| url := "https://p/authorize"; params := ∅ |};
     token := {| url := "https://p/token"; params := ∅ |};
     clientId := "cid";
     clientSecret := "csec" |}.

Definition demo_profile : TOAuth2Profile :=
  {| scope := ["read"]; provider := demo_provider |}.

(** [oauth2({ profiles: { demo: ... }, state, storage })]: every optional
    setting is left to its default. *)
Definition cfg : TPluginParams unit W :=
  {| Params.profiles := {["demo" := demo_profile]};
     Params.login := None;
     Params.authorized := None;
     Params.logout := None;
     Params.host := None;
     Params.redirectTo := None;
     Params.state := state;
     Params.storage := storage |}.

(** The same plugin behind another host. *)
Definition cfg_at (h : string) : TPluginParams unit W :=
  {| Params.profiles := {["demo" := demo_profile]};
     Params.login := None;
     Params.authorized := None;
     Params.logout := None;
     Params.host := Some h;
     Params.redirectTo := None;
     Params.state := state;
     Params.storage := storage |}.

(** A provider whose authorization endpoint brings its own
    [redirect_uri] parameter. *)
Definition overriding_profile : TOAuth2Profile :=
  {| scope := [];
     provider :=
       {| auth := {| url := "https://p/authorize";
                     params := {["redirect_uri" := PString "https://app.example/cb"]} |};
          token := {| url := "https://p/token"; params := ∅ |};
          clientId := "cid";
          clientSecret := "csec" |} |}.

Definition token_of (created expires : number) : TOAuth2AccessToken :=
  {| AccessToken.token_type := "bearer";
     AccessToken.scope := "read";
     AccessToken.expires_in := expires;
     AccessToken.access_token := "tok";
     AccessToken.created_at := created |}.

(** The body
    [{"access_token":"tok","token_type":"bearer","scope":"read","created_at":1}]:
    no [expires_in], and a [created_at] of the provider's own. *)
Definition token_json : TokenJson.t :=
  {| TokenJson.token_type := "bearer";
     TokenJson.scope := "read";
     TokenJson.expires_in := None;
     TokenJson.access_token := "tok";
     TokenJson.created_at := Some 1%Q |}.

Definition json_reply : Fetched.t :=
  {| Fetched.status := 200;
     Fetched.statusText := "OK";
     Fetched.content_type := Some "application/json; charset=utf-8";
     Fetched.text := "{}";
     Fetched.json := Some token_json |}.

Definition error_reply : Fetched.t :=
  {| Fetched.status := 401;
     Fetched.statusText := "Unauthorized";
     Fetched.content_type := Some "text/plain";
     Fetched.text := "bad client";
     Fetched.json := None |}.

(** The outside world: the stored tokens, the state a login issued, what
    the token endpoint answers, and the time in milliseconds. *)
Definition outside_of (stored : gmap string TOAuth2AccessToken)
    (pending : option string) (reply : Fetched.t) (ms : Z) : W :=
  {| tokens := stored; issued := pending; endpoint := reply; clock := ms |}.

(** A world in which nothing has been called yet. *)
Definition world (stored : gmap string TOAuth2AccessToken) (pending : option string)
    (reply : Fetched.t) (ms : Z) : World unit W :=
  {| outside := outside_of stored pending reply ms; calls := [] |}.

(** [GET <path>?<query>] routed with [:name] bound to [name]. *)
Definition get_request (name : string) (q : list (string * string))
  : TProviderContext unit :=
  {| request := (); params_name := name; query := list_to_map q |}.

(** [GET /login/demo/authorized?code=abc123&state=state-demo] *)
Definition callback : TProviderContext unit :=
  get_request "demo" [("code", "abc123"); ("state", "state-demo")].

(** [GET /login/demo/authorized?code=abc123&state=forged] *)
Definition forged_callback : TProviderContext unit :=
  get_request "demo" [("code", "abc123"); ("state", "forged")].

(** The plugin configured with the overriding provider. *)
Definition cfg_overriding : TPluginParams unit W :=
  {| Params.profiles := {["demo" := overriding_profile]};
     Params.login := None;
     Params.authorized := None;
     Params.logout := None;
     Params.host := None;
     Params.redirectTo := None;
     Params.state := state;
     Params.storage := storage |}.

(** A storage holding one token for [demo], created at second 1000 and
    good for an hour. *)
Definition one_token : gmap string TOAuth2AccessToken :=
  {["demo" := token_of 1000 3600]}.

(** Profiles with an own key [__proto__] beside [demo], as
    [JSON.parse] or a computed key [{ ["__proto__"]: ..., demo: ... }]
    gives them. *)
Definition cfg_proto : TPluginParams unit W :=
  {| Params.profiles := <["__proto__" := demo_profile]> {["demo" := demo_profile]};
     Params.login := None;
     Params.authorized := None;
     Params.logout := None;
     Params.host := None;
     Params.redirectTo := None;
     Params.state := state;
     Params.storage := storage |}.

(** A 200 response of type [application/json-seq] whose body happens to
    parse. *)
Definition json_seq_reply : Fetched.t :=
  {| Fetched.status := 200;
     Fetched.statusText := "OK";
     Fetched.content_type := Some "application/json-seq";
     Fetched.text := "{}";
     Fetched.json := Some token_json |}.

(** A 200 response that is a web page. *)
Definition html_reply : Fetched.t :=
  {| Fetched.status := 200;
     Fetched.statusText := "OK";
     Fetched.content_type := Some "text/html";
     Fetched.text := "<html></html>";
     Fetched.json := None |}.

(** A storage whose [set] throws before it returns a promise. *)
Definition throwing_storage : Storage.t unit W :=
  {| Storage.set := fun _ _ _ w => (Throw (Error "storage is read-only"), w);
     Storage.get := Storage.get storage;
     Storage.delete := Storage.delete storage |}.

Definition cfg_throwing : TPluginParams unit W :=
  {| Params.profiles := {["demo" := demo_profile]};
     Params.login := None;
     Params.authorized := None;
     Params.logout := None;
     Params.host := None;
     Params.redirectTo := None;
     Params.state := state;
     Params.storage := throwing_storage |}.

End Demo.

(** ** The words of the specification, for comparison with the code *)

(** The host is "a combination of domain and port": the domain is what
    precedes the first colon. *)
Definition host_domain (h : string) : string :=
  match String.index 0 ":" h with
  | Some pos => String.substring 0 pos h
  | None => h
  end.

(** "The host denotes the local loopback name": its domain is
    [localhost]. *)
Definition denotes_loopback_name (h : string) : bool :=
  bool_decide (host_domain h = "localhost").

(** "A token is valid iff it exists and [now < createdAt + expiresIn]",
    at a given time in seconds. *)
Definition valid_at (now : number) (token : option TOAuth2AccessToken) : bool :=
  match token with
  | Some t => number_lt now (AccessToken.created_at t + AccessToken.expires_in t)%Q
  | None => false
  end.

(** The clock of a world, in seconds: [Date.now() / 1000]. *)
Definition seconds {Request W : Type} (platform : Platform.t W)
    (w : World Request W) : number :=
  (inject_Z (Platform.Date_now platform (outside w)) / 1000)%Q.

(** The profiles [ctx.authorized] looks up when [valid] tells which of
    them hold a valid token: all of them up to and including the first
    that does not. *)
Fixpoint looked_up (valid : string -> bool) (profiles : list string) : list string :=
  match profiles with
  | [] => []
  | profile :: rest => profile :: (if valid profile then looked_up valid rest else [])
  end.

(** The media type of a [Content-Type] value: what precedes its
    parameters. *)
Definition media_type (content_type : string) : string :=
  match String.index 0 ";" content_type with
  | Some pos => String.substring 0 pos content_type
  | None => content_type
  end.

(** [s] ends with [ending]. *)
Definition ends_with (s ending : string) : bool :=
  let n := String.length s in
  let m := String.length ending in
  (m <=? n)%nat && bool_decide (String.substring (n - m) m s = ending).

(** "The Content-Type is JSON": there is one, and its media type is
    [application/json] or carries the [+json] suffix. *)
Definition denotes_json (content_type : option string) : bool :=
  match content_type with
  | Some ct =>
      bool_decide (media_type ct = "application/json")
      || ends_with (media_type ct) "+json"
  | None => false
  end.

(** The protocol the specification's sentence gives a host. *)
Definition protocol_as_specified (h : string) : string :=
  if denotes_loopback_name h then "http" else "https".

(** Whether a logged call is [storage.set]. *)
Definition is_storage_set {Request : Type} (c : Call Request) : bool :=
  match c with
  | storage_set _ _ _ => true
  | _ => false
  end.

(** Whether a logged call is [fetch]. *)
Definition is_fetch {Request : Type} (c : Call Request) : bool :=
  match c with
  | platform_fetch _ _ => true
  | _ => false
  end.

(** Whether a string contains [$], the character that starts a
    replacement pattern of [String.prototype.replace]. *)
Fixpoint mentions_dollar (s : string) : bool :=
  match s with
  | EmptyString => false
  | String c rest => Ascii.eqb c "$" || mentions_dollar rest
  end.

(** ** Properties *)

(** Unfolds the steps of the effect monad. *)
Ltac step :=
  unfold destructure, member, response_json, Date_now, call, throw;
  unfold mbind, M_bind, mret, M_ret; cbn beta iota zeta; cbn [outside calls negb].

(** *** The route handlers *)

Section Handlers.

Context {Request W : Type}.
Variable cfg : TPluginParams Request W.
Variable platform : Platform.t W.
Variable buildUrl : string -> TUrlParams -> option TOAuth2Scope -> string.
Variable redirect : string -> Response.

Implicit Types (req : TProviderContext Request) (w : World Request W).
Implicit Types (name : string) (p : TOAuth2Profile).

Lemma resolveProvider_own name p :
  globalProfiles cfg !! name = Some p ->
  resolveProvider cfg name = AValue (Own p).
Proof.
  intros Hp. unfold resolveProvider, has_property, get_property.
  rewrite Hp. rewrite bool_decide_eq_true_2 by eauto. reflexivity.
Qed.

Lemma resolveProvider_unknown name :
  globalProfiles cfg !! name = None ->
  name ∉ Object_prototype_keys ->
  resolveProvider cfg name = AResponse NotFound.
Proof.
  intros Hp Hk. unfold resolveProvider, has_property. rewrite Hp.
  rewrite bool_decide_eq_false_2 by (intros [? ?]; discriminate).
  rewrite bool_decide_eq_false_2 by assumption. reflexivity.
Qed.

Lemma resolveProvider_inherited name :
  globalProfiles cfg !! name = None ->
  name ∈ Object_prototype_keys ->
  resolveProvider cfg name = AValue Inherited.
Proof.
  intros Hp Hk. unfold resolveProvider, has_property, get_property. rewrite Hp.
  rewrite (bool_decide_eq_true_2 (name ∈ _)) by assumption.
  rewrite orb_true_r. reflexivity.
Qed.

(** A name that is neither configured nor inherited from
    [Object.prototype] is answered with 404 by all three handlers, and no
    collaborator is called. *)
Lemma unknown_name_not_found req w :
  globalProfiles cfg !! params_name req = None ->
  params_name req ∉ Object_prototype_keys ->
  login_handler cfg buildUrl redirect req w = (Ok NotFound, w)
  /\ authorized_handler cfg platform redirect req w = (Ok NotFound, w)
  /\ logout_handler cfg redirect req w = (Ok NotFound, w).
Proof.
  intros Hp Hk. unfold login_handler, authorized_handler, logout_handler.
  rewrite (resolveProvider_unknown _ Hp Hk). auto.
Qed.

(** A name that is not configured but names a member of
    [Object.prototype] passes the resolver: the logout handler goes on to
    [storage.delete]. *)
Lemma logout_inherited_name req w :
  globalProfiles cfg !! params_name req = None ->
  params_name req ∈ Object_prototype_keys ->
  calls (snd (logout_handler cfg redirect req w))
  = calls w ++ [storage_delete (request req) (params_name req)].
Proof.
  intros Hp Hk. unfold logout_handler.
  rewrite (resolveProvider_inherited _ Hp Hk). step.
  destruct (Storage.delete _ _ _ _) as [[[]|e] o]; reflexivity.
Qed.

(** In the same situation the authorized handler goes on to
    [state.check]. *)
Lemma authorized_inherited_name req w :
  globalProfiles cfg !! params_name req = None ->
  params_name req ∈ Object_prototype_keys ->
  calls (snd (authorized_handler cfg platform redirect req w))
  = calls w ++ [state_check (request req) (params_name req) (query req !! "state")].
Proof.
  intros Hp Hk. unfold authorized_handler.
  rewrite (resolveProvider_inherited _ Hp Hk). step.
  destruct (OAuth2State.check _ _ _ _ _) as [[[]|e] o]; reflexivity.
Qed.

(** What the login handler does for a configured profile. *)
Lemma login_handler_configured req w p st o :
  globalProfiles cfg !! params_name req = Some p ->
  OAuth2State.generate (Params.state cfg) (request req) (params_name req) (outside w)
    = (Ok st, o) ->
  login_handler cfg buildUrl redirect req w
  = (Ok (redirect (buildUrl (url (auth (provider p)))
                     (login_query cfg p (params_name req) st) (Some (scope p)))),
     {| outside := o;
        calls := calls w ++ [state_generate (request req) (params_name req)] |}).
Proof.
  intros Hp Hg. unfold login_handler. rewrite (resolveProvider_own _ _ Hp).
  step. rewrite Hg. reflexivity.
Qed.

(** What the authorized handler sends to the token endpoint. *)
Lemma authorized_handler_exchange req w p o1 :
  globalProfiles cfg !! params_name req = Some p ->
  OAuth2State.check (Params.state cfg) (request req) (params_name req)
    (query req !! "state") (outside w) = (Ok true, o1) ->
  exists r w',
    authorized_handler cfg platform redirect req w = (r, w')
    /\ exists rest,
        calls w' =
        calls w ++
          state_check (request req) (params_name req) (query req !! "state")
          :: platform_fetch (url (token (provider p)))
               (token_request (token_body cfg p (params_name req) (query req !! "code")))
          :: rest.
Proof.
  intros Hp Hc. unfold authorized_handler. rewrite (resolveProvider_own _ _ Hp).
  step. rewrite Hc. cbn [negb]. step.
  fold (token_body cfg p (params_name req) (query req !! "code")).
  destruct (Platform.fetch platform _ _ o1) as [[response|e] o2] eqn:Hf; cbn [outside calls].
  2:{ do 2 eexists. split; [reflexivity|]. exists []. cbn. by rewrite <- app_assoc. }
  destruct (exchange_failed response).
  { do 2 eexists. split; [reflexivity|]. exists []. cbn. by rewrite <- app_assoc. }
  destruct (Fetched.json response) as [json|].
  - cbn beta iota. cbn [outside calls].
    destruct (Storage.set _ _ _ _ o2) as [[[]|e] o3];
      do 2 eexists; (split; [reflexivity|]); eexists [_]; cbn;
      by rewrite <- !app_assoc.
  - do 2 eexists. split; [reflexivity|]. exists []. cbn. by rewrite <- app_assoc.
Qed.

(** C1: in the authorized phase, for a configured profile name, when the
    state store's [check] answers false for the callback's state, the
    handler throws [Error('State missmatch')]; the only collaborator call
    it has made is that [check], so the token storage's [set] is not
    called. *)
Theorem authorized_state_mismatch req w p o :
  globalProfiles cfg !! params_name req = Some p ->
  OAuth2State.check (Params.state cfg) (request req) (params_name req)
    (query req !! "state") (outside w) = (Ok false, o) ->
  exists w',
    authorized_handler cfg platform redirect req w
    = (Throw (Error "State missmatch"), w')
    /\ calls w' =
       calls w ++ [state_check (request req) (params_name req) (query req !! "state")]
    /\ forall made, calls w' = calls w ++ made ->
         Forall (fun c => is_storage_set c = false) made.
Proof.
  intros Hp Hc. unfold authorized_handler. rewrite (resolveProvider_own _ _ Hp).
  step. rewrite Hc. cbn [negb]. step.
  eexists. split; [reflexivity|]. cbn [calls]. split; [reflexivity|].
  intros made Hm. apply app_inv_head in Hm. subst made.
  repeat constructor.
Qed.

(** C2, as amended: in the authorized phase, when the token endpoint
    answers with a status outside 200-299, or without a [Content-Type] or
    with one that does not start with [application/json], the handler
    throws an [Error] whose message
    is the status, the status text and the body text, separated by
    [": "]; the calls it has made are the state check and one [fetch],
    so [storage.set] is not called and the exchange is not repeated. *)
Theorem token_exchange_failure req w p o1 o2 response :
  globalProfiles cfg !! params_name req = Some p ->
  OAuth2State.check (Params.state cfg) (request req) (params_name req)
    (query req !! "state") (outside w) = (Ok true, o1) ->
  Platform.fetch platform (url (token (provider p)))
    (token_request (token_body cfg p (params_name req) (query req !! "code"))) o1
    = (Ok response, o2) ->
  Fetched.ok response = false \/ content_type_is_json response = false ->
  exists w',
    authorized_handler cfg platform redirect req w
    = (Throw (Error (Number_toString (Fetched.status response) +:+ ": " +:+
                     Fetched.statusText response +:+ ": " +:+
                     Fetched.text response)), w')
    /\ calls w' =
       calls w ++
         [ state_check (request req) (params_name req) (query req !! "state");
           platform_fetch (url (token (provider p)))
             (token_request (token_body cfg p (params_name req) (query req !! "code"))) ]
    /\ (forall made, calls w' = calls w ++ made ->
          Forall (fun c => is_storage_set c = false) made
          /\ length (filter (fun c => is_fetch c = true) made) = 1%nat).
Proof.
  intros Hp Hc Hf Hbad. unfold authorized_handler.
  rewrite (resolveProvider_own _ _ Hp). step. rewrite Hc. step.
  fold (token_body cfg p (params_name req) (query req !! "code")).
  rewrite Hf. cbn beta iota.
  assert (exchange_failed response = true) as ->.
  { unfold exchange_failed. destruct Hbad as [-> | ->]; [reflexivity|].
    apply orb_true_r. }
  eexists. split; [reflexivity|]. cbn [calls]. rewrite <- app_assoc.
  split; [reflexivity|].
  intros made Hm. apply app_inv_head in Hm.
  subst made. split; [repeat constructor | reflexivity].
Qed.

(** C3: after a successful exchange the handler calls [storage.set] with a
    record whose [expires_in] is the response's, or 3600 when the response
    has none, and whose [created_at] is [Date.now() / 1000] read at that
    moment, whatever [created_at] the response carried; the other fields
    are the response's.  The handler then answers with the redirect to
    [redirectTo]; only when the call of [storage.set] itself throws is
    that exception the outcome. *)
Theorem token_exchange_stores req w p o1 o2 response json :
  globalProfiles cfg !! params_name req = Some p ->
  OAuth2State.check (Params.state cfg) (request req) (params_name req)
    (query req !! "state") (outside w) = (Ok true, o1) ->
  Platform.fetch platform (url (token (provider p)))
    (token_request (token_body cfg p (params_name req) (query req !! "code"))) o1
    = (Ok response, o2) ->
  Fetched.ok response = true ->
  content_type_is_json response = true ->
  Fetched.json response = Some json ->
  exists stored w',
    authorized_handler cfg platform redirect req w
    = (match fst (Storage.set (Params.storage cfg) (request req) (params_name req)
                    stored o2) with
       | Ok _ => Ok (redirect (redirectTo cfg))
       | Throw e => Throw e
       end, w')
    /\ calls w' =
       calls w ++
         [ state_check (request req) (params_name req) (query req !! "state");
           platform_fetch (url (token (provider p)))
             (token_request (token_body cfg p (params_name req) (query req !! "code")));
           storage_set (request req) (params_name req) stored ]
    /\ outside w' =
       snd (Storage.set (Params.storage cfg) (request req) (params_name req) stored o2)
    /\ AccessToken.expires_in stored =
       match TokenJson.expires_in json with
       | Some seconds => seconds
       | None => 3600%Q
       end
    /\ AccessToken.created_at stored = (inject_Z (Platform.Date_now platform o2) / 1000)%Q
    /\ AccessToken.access_token stored = TokenJson.access_token json
    /\ AccessToken.token_type stored = TokenJson.token_type json
    /\ AccessToken.scope stored = TokenJson.scope json.
Proof.
  intros Hp Hc Hf Hok Hct Hjson. unfold authorized_handler.
  rewrite (resolveProvider_own _ _ Hp). step. rewrite Hc. step.
  fold (token_body cfg p (params_name req) (query req !! "code")).
  rewrite Hf. cbn beta iota.
  assert (exchange_failed response = false) as ->.
  { unfold exchange_failed. rewrite Hok, Hct. reflexivity. }
  rewrite Hjson. cbn beta iota. cbn [outside calls].
  exists (stamp json (Platform.Date_now platform o2)).
  destruct (Storage.set (Params.storage cfg) (request req) (params_name req)
              (stamp json (Platform.Date_now platform o2)) o2)
    as [[[]|e] o3]; cbn [fst snd];
    (eexists; split; [reflexivity|]; cbn [outside calls];
     split; [by rewrite <- !app_assoc|]; split; [reflexivity|];
     unfold stamp; cbn; destruct (TokenJson.expires_in json); auto).
Qed.

End Handlers.

(** *** The capabilities and the URI helpers *)

Section Capabilities.

Context {Request W : Type}.
Variable cfg : TPluginParams Request W.
Variable platform : Platform.t W.

Implicit Types (w : World Request W) (name : string) (p : TOAuth2Profile).

Lemma number_lt_spec (a b : number) : number_lt a b = true <-> (a < b)%Q.
Proof.
  unfold number_lt. rewrite Qlt_alt.
  destruct (a ?= b)%Q; split; congruence.
Qed.

Lemma isTokenValid_valid_at token w :
  isTokenValid platform token w = (Ok (valid_at (seconds platform w) token), w).
Proof. destruct token; reflexivity. Qed.

(** C4: the validity check answers false for an absent token; for a
    present one it answers true exactly when the clock, in seconds, is
    strictly below [created_at + expires_in], so that at
    [created_at + expires_in] itself the token is invalid.  The check
    calls no collaborator. *)
Theorem isTokenValid_spec w :
  isTokenValid platform None w = (Ok false, w)
  /\ forall t, exists b,
       isTokenValid platform (Some t) w = (Ok b, w)
       /\ (b = true <->
           (seconds platform w < AccessToken.created_at t + AccessToken.expires_in t)%Q)
       /\ ((seconds platform w == AccessToken.created_at t + AccessToken.expires_in t)%Q ->
           b = false).
Proof.
  split; [reflexivity|]. intros t. eexists. split; [apply isTokenValid_valid_at|].
  cbn [valid_at]. split; [apply number_lt_spec|].
  intros Heq. apply not_true_is_false. rewrite number_lt_spec, Heq.
  apply Qlt_irrefl.
Qed.

Lemma looked_up_first_invalid (valid : string -> bool) before profile after :
  (forall q, q ∈ before -> valid q = true) ->
  valid profile = false ->
  looked_up valid (before ++ profile :: after) = before ++ [profile]
  /\ forallb valid (before ++ profile :: after) = false.
Proof.
  intros Hbefore Hp. induction before as [|q before IH]; cbn.
  - rewrite Hp. auto.
  - rewrite (Hbefore q) by (apply elem_of_cons; auto). cbn.
    assert (forall q', q' ∈ before -> valid q' = true) as Hrest
      by (intros q' Hq'; apply Hbefore, elem_of_cons; auto).
    destruct (IH Hrest) as [IH1 IH2]. by rewrite IH1, IH2.
Qed.

Lemma looked_up_all_valid (valid : string -> bool) profiles :
  forallb valid profiles = true -> looked_up valid profiles = profiles.
Proof.
  induction profiles as [|q profiles IH]; cbn; [reflexivity|].
  intros [-> H]%andb_true_iff. by rewrite IH.
Qed.

(** [ctx.authorized] over a storage whose lookups only read. *)
Lemma ctx_authorized_run request profiles w
    (stored : string -> option TOAuth2AccessToken) :
  (forall profile, profile ∈ profiles ->
     Storage.get (Params.storage cfg) request profile (outside w)
     = (Ok (stored profile), outside w)) ->
  let valid := fun profile => valid_at (seconds platform w) (stored profile) in
  ctx_authorized cfg platform request profiles w
  = (Ok (forallb valid profiles),
     {| outside := outside w;
        calls := calls w ++ map (storage_get request) (looked_up valid profiles) |}).
Proof.
  intros Hread valid. revert w Hread valid.
  induction profiles as [|profile rest IH]; intros w Hread valid.
  - cbn. rewrite app_nil_r. by destruct w.
  - cbn [ctx_authorized]. step.
    rewrite (Hread profile) by set_solver. cbn beta iota.
    rewrite isTokenValid_valid_at. unfold seconds at 1. cbn [outside calls].
    fold (seconds platform w). fold (valid profile).
    cbn [forallb looked_up map]. destruct (valid profile) eqn:Hv; cbn [negb andb].
    + set (w1 := {| outside := outside w;
                    calls := calls w ++ [storage_get request profile] |}).
      rewrite (IH w1).
      * subst w1 valid. unfold seconds. cbn [outside calls].
        by rewrite <- app_assoc.
      * intros q Hq. cbn [outside]. apply Hread. set_solver.
    + reflexivity.
Qed.

(** C7: over a storage whose lookups return each profile's stored token,
    [ctx.authorized(...profiles)] answers true exactly when every listed
    profile's token passes the validity check; and at the first profile
    whose token is missing or invalid it answers false having looked up
    that profile and those before it, and none of the later ones. *)
Theorem ctx_authorized_spec request profiles w
    (stored : string -> option TOAuth2AccessToken) :
  (forall profile, profile ∈ profiles ->
     Storage.get (Params.storage cfg) request profile (outside w)
     = (Ok (stored profile), outside w)) ->
  exists b w',
    ctx_authorized cfg platform request profiles w = (Ok b, w')
    /\ (b = true <->
        forall profile, profile ∈ profiles ->
          valid_at (seconds platform w) (stored profile) = true)
    /\ (b = true -> calls w' = calls w ++ map (storage_get request) profiles)
    /\ (forall before profile after,
          profiles = before ++ profile :: after ->
          (forall q, q ∈ before -> valid_at (seconds platform w) (stored q) = true) ->
          valid_at (seconds platform w) (stored profile) = false ->
          b = false
          /\ calls w' = calls w ++ map (storage_get request) (before ++ [profile])).
Proof.
  intros Hread. do 2 eexists. split; [by apply ctx_authorized_run|].
  cbn [calls]. split; [|split].
  - rewrite forallb_forall. split; intros H q Hq; apply H.
    + by apply list_elem_of_In.
    + by apply list_elem_of_In.
  - intros Hb. by rewrite (looked_up_all_valid _ _ Hb).
  - intros before profile after -> Hbefore Hp.
    destruct (looked_up_first_invalid
                (fun q => valid_at (seconds platform w) (stored q))
                before profile after Hbefore Hp) as [-> ->].
    auto.
Qed.

(** C10: [ctx.authorized()] without profile names answers true and looks
    nothing up. *)
Theorem ctx_authorized_no_profiles request w :
  ctx_authorized cfg platform request [] w = (Ok true, w).
Proof. reflexivity. Qed.

Lemma elem_of_Object_keys {A : Type} (o : gmap string A) (key : string) :
  key ∈ Object_keys o <-> is_Some (o !! key).
Proof.
  unfold Object_keys. rewrite list_elem_of_fmap. split.
  - intros [[k v] [-> H]]. apply elem_of_map_to_list in H. eauto.
  - intros [v H]. exists (key, v). split; [reflexivity|].
    by apply elem_of_map_to_list.
Qed.

Lemma fold_assign_own {V : Type} (entry : string -> V) (keys : list string)
    (acc : Assigned V) (key : string) :
  own (fold_left (fun result k => assign result k (entry k)) keys acc) !! key
  = if decide (key ∈ keys /\ key <> "__proto__") then Some (entry key)
    else own acc !! key.
Proof.
  revert acc. induction keys as [|k keys IH]; intros acc; cbn [fold_left].
  - rewrite decide_False; [reflexivity|]. intros [Hin _].
    by apply not_elem_of_nil in Hin.
  - rewrite IH. unfold assign.
    destruct (decide (key ∈ keys /\ key <> "__proto__")) as [[Hin Hne]|Hnot].
    + rewrite decide_True; [reflexivity|]. split; [|exact Hne].
      apply elem_of_cons. auto.
    + destruct (decide (k = "__proto__")) as [->|Hk]; cbn [own].
      * rewrite decide_False; [reflexivity|].
        intros [[->|Hin]%elem_of_cons Hne]; [congruence | auto].
      * destruct (decide (key = k)) as [->|Hkey].
        -- rewrite lookup_insert_eq. rewrite decide_True; [reflexivity|].
           split; [apply elem_of_cons; auto | exact Hk].
        -- rewrite lookup_insert_ne by congruence.
           rewrite decide_False; [reflexivity|].
           intros [[->|Hin]%elem_of_cons Hne]; [congruence | auto].
Qed.

Lemma fold_assign_prototype {V : Type} (entry : string -> V) (keys : list string)
    (acc : Assigned V) :
  prototype (fold_left (fun result k => assign result k (entry k)) keys acc)
  = if decide ("__proto__" ∈ keys) then Some (entry "__proto__")
    else prototype acc.
Proof.
  revert acc. induction keys as [|k keys IH]; intros acc; cbn [fold_left].
  - rewrite decide_False; [reflexivity | apply not_elem_of_nil].
  - rewrite IH. unfold assign.
    destruct (decide ("__proto__" ∈ keys)) as [Hin|Hnotin].
    + rewrite decide_True; [reflexivity | apply elem_of_cons; auto].
    + destruct (decide (k = "__proto__")) as [->|Hk]; cbn [prototype].
      * rewrite decide_True; [reflexivity | apply elem_of_cons; auto].
      * rewrite decide_False; [reflexivity|].
        intros [?|?]%elem_of_cons; [congruence | contradiction].
Qed.

(** [ctx.profiles()] without arguments: the own entries of the object it
    answers with are those of the configured profile names other than
    [__proto__], each with the name's login and logout URI in external
    form; the world is left as it was. *)
Lemma ctx_profiles_entries w :
  exists result,
    ctx_profiles cfg [] w = (Ok result, w)
    /\ forall name,
         own result !! name =
         match globalProfiles cfg !! name with
         | Some _ =>
             if decide (name = "__proto__") then None
             else
               Some {| ProfileUrl.login :=
                         protocol cfg +:+ "://" +:+ host cfg +:+
                         replace (login cfg) ":name" name;
                       ProfileUrl.logout :=
                         protocol cfg +:+ "://" +:+ host cfg +:+
                         replace (logout cfg) ":name" name |}
         | None => None
         end.
Proof.
  exists (fold_left
            (fun result k =>
               assign result k
                 {| ProfileUrl.login := buildLoginUri cfg k true;
                    ProfileUrl.logout := buildLogoutUri cfg k true |})
            (Object_keys (globalProfiles cfg)) empty_object).
  split; [reflexivity|]. intros name.
  rewrite (fold_assign_own
             (fun k => {| ProfileUrl.login := buildLoginUri cfg k true;
                          ProfileUrl.logout := buildLogoutUri cfg k true |})).
  cbn [empty_object own]. rewrite lookup_empty.
  destruct (globalProfiles cfg !! name) as [p|] eqn:Hp.
  - destruct (decide (name = "__proto__")) as [Hname|Hname].
    + rewrite decide_False; [reflexivity|]. by intros [_ ?].
    + rewrite decide_True; [reflexivity|]. split; [|exact Hname].
      apply elem_of_Object_keys. eauto.
  - rewrite decide_False; [reflexivity|]. intros [Hin _].
    apply elem_of_Object_keys in Hin. rewrite Hp in Hin. by destruct Hin.
Qed.

Lemma authParams_redirect_uri client_id client_secret redirect_uri st :
  authParams client_id client_secret redirect_uri st !! "redirect_uri"
  = Some (PString redirect_uri).
Proof. reflexivity. Qed.

Lemma tokenParams_redirect_uri client_id client_secret redirect_uri code :
  tokenParams client_id client_secret redirect_uri code !! "redirect_uri"
  = Some (PString redirect_uri).
Proof. reflexivity. Qed.

Lemma spread_lookup (a b : TUrlParams) (key : string) :
  spread a b !! key = match b !! key with Some v => Some v | None => a !! key end.
Proof.
  unfold spread. rewrite lookup_union.
  destruct (b !! key), (a !! key); reflexivity.
Qed.

(** C6, as amended: when the provider's extra parameters for the two
    endpoints agree on [redirect_uri] (in particular when neither defines
    it), the [redirect_uri] of the token request body is the one of the
    authorization URL's query.  *)
Theorem redirect_uri_agreement p name st code :
  params (auth (provider p)) !! "redirect_uri"
  = params (token (provider p)) !! "redirect_uri" ->
  token_body cfg p name code !! "redirect_uri"
  = login_query cfg p name st !! "redirect_uri".
Proof.
  intros Hagree. unfold token_body, login_query.
  rewrite !spread_lookup, Hagree.
  by rewrite authParams_redirect_uri, tokenParams_redirect_uri.
Qed.

(** Without extra parameters of that name, both carry the callback URI
    the plugin builds. *)
Lemma redirect_uri_built p name st code :
  params (auth (provider p)) !! "redirect_uri" = None ->
  params (token (provider p)) !! "redirect_uri" = None ->
  login_query cfg p name st !! "redirect_uri"
  = Some (PString (buildRedirectUri cfg name))
  /\ token_body cfg p name code !! "redirect_uri"
    = Some (PString (buildRedirectUri cfg name)).
Proof.
  intros Ha Ht. unfold token_body, login_query.
  by rewrite !spread_lookup, Ha, Ht.
Qed.

(** What line 180 computes: the protocol is [http] when the host string
    starts with [localhost] and [https] otherwise, the host being
    [localhost:3000] when none (or an empty one) is configured; every URI
    built in external form starts with that protocol, [://] and the
    host. *)
Lemma protocol_by_prefix name :
  protocol cfg = (if String.prefix "localhost" (host cfg) then "http" else "https")
  /\ host cfg =
     match Params.host cfg with
     | Some h => if decide (h = "") then "localhost:3000" else h
     | None => "localhost:3000"
     end
  /\ buildLoginUri cfg name true =
     protocol cfg +:+ "://" +:+ host cfg +:+ replace (login cfg) ":name" name
  /\ buildLogoutUri cfg name true =
     protocol cfg +:+ "://" +:+ host cfg +:+ replace (logout cfg) ":name" name
  /\ buildRedirectUri cfg name =
     protocol cfg +:+ "://" +:+ host cfg +:+ replace (authorized cfg) ":name" name.
Proof.
  repeat split. unfold host, or_default, falsy.
  destruct (Params.host cfg) as [h|]; [|reflexivity].
  destruct (decide (h = "")); reflexivity.
Qed.

End Capabilities.

(** ** The handlers on concrete requests *)

(** C5: [GET /logout/toString], [GET /login/toString/authorized] and
    [GET /login/toString] with only [demo] configured.  [toString] is not
    a configured profile name, yet none of the handlers answers 404: the
    logout handler calls [storage.delete] and redirects, the authorized
    handler calls [state.check], the login handler throws. *)
Theorem inherited_name_not_rejected :
  Params.profiles Demo.cfg !! "toString" = None
  /\ logout_handler Demo.cfg Demo.redirect (Demo.get_request "toString" [])
       (Demo.world ∅ None Demo.json_reply 0)
     = (Ok (Demo.redirect "/"),
        {| outside := Demo.outside_of ∅ None Demo.json_reply 0;
           calls := [storage_delete () "toString"] |})
  /\ authorized_handler Demo.cfg Demo.platform Demo.redirect
       (Demo.get_request "toString" []) (Demo.world ∅ None Demo.json_reply 0)
     = (Throw (Error "State missmatch"),
        {| outside := Demo.outside_of ∅ None Demo.json_reply 0;
           calls := [state_check () "toString" None] |})
  /\ login_handler Demo.cfg Demo.buildUrl Demo.redirect
       (Demo.get_request "toString" []) (Demo.world ∅ None Demo.json_reply 0)
     = (Throw (TypeError "provider.clientId"), Demo.world ∅ None Demo.json_reply 0).
Proof. split; [|split; [|split]]; vm_compute; reflexivity. Qed.

(** C6, as stated, fails for a provider whose authorization parameters
    bring a [redirect_uri] of their own: the authorization URL is built
    with that one, the token request with the callback URI. *)
Lemma redirect_uri_overridden :
  login_query Demo.cfg_overriding Demo.overriding_profile "demo" "state-demo"
    !! "redirect_uri" = Some (PString "https://app.example/cb")
  /\ token_body Demo.cfg_overriding Demo.overriding_profile "demo" (Some "abc123")
       !! "redirect_uri" = Some (PString "http://localhost:3000/login/demo/authorized")
  /\ token_body Demo.cfg_overriding Demo.overriding_profile "demo" (Some "abc123")
       !! "redirect_uri"
     <> login_query Demo.cfg_overriding Demo.overriding_profile "demo" "state-demo"
          !! "redirect_uri".
Proof. split; [|split]; vm_compute; [reflexivity | reflexivity | discriminate]. Qed.

(** C2, as stated, fails for a 200 response of type
    [application/json-seq], which is not JSON: its [Content-Type] starts
    with [application/json], so the handler does not throw; the body
    parses, and the token is handed to [storage.set]. *)
Lemma json_seq_accepted :
  denotes_json (Fetched.content_type Demo.json_seq_reply) = false
  /\ authorized_handler Demo.cfg Demo.platform Demo.redirect Demo.callback
       (Demo.world ∅ (Some "state-demo") Demo.json_seq_reply 1700000000123)
     = (Ok (Demo.redirect "/"),
        {| outside :=
             Demo.outside_of {["demo" := stamp Demo.token_json 1700000000123]} None
               Demo.json_seq_reply 1700000000123;
           calls :=
             [ state_check () "demo" (Some "state-demo");
               platform_fetch "https://p/token"
                 (token_request
                    (token_body Demo.cfg Demo.demo_profile "demo" (Some "abc123")));
               storage_set () "demo" (stamp Demo.token_json 1700000000123) ] |}).
Proof. split; vm_compute; reflexivity. Qed.

(** C8: [ctx.profiles()] when the configured profiles have the own keys
    [__proto__] and [demo].  [__proto__] is a configured profile name, yet
    the object answered has no entry for it: its only own entry is the one
    of [demo], and the entry built for [__proto__] has become the object's
    prototype.  No collaborator is called. *)
Theorem ctx_profiles_proto_key :
  globalProfiles Demo.cfg_proto !! "__proto__" = Some Demo.demo_profile
  /\ ctx_profiles Demo.cfg_proto [] (Demo.world ∅ None Demo.json_reply 0)
     = (Ok {| own :=
                {["demo" :=
                    {| ProfileUrl.login := "http://localhost:3000/login/demo";
                       ProfileUrl.logout := "http://localhost:3000/logout/demo" |}]};
              prototype :=
                Some {| ProfileUrl.login := "http://localhost:3000/login/__proto__";
                        ProfileUrl.logout :=
                          "http://localhost:3000/logout/__proto__" |} |},
        Demo.world ∅ None Demo.json_reply 0).
Proof. split; vm_compute; reflexivity. Qed.

(** C9: the host [localhost.example.com] is not the loopback name, so the
    protocol is to be [https]; line 180 tests only that the host string
    starts with [localhost], and the plugin uses [http] for it. *)
Lemma protocol_localhost_prefix :
  denotes_loopback_name "localhost.example.com" = false
  /\ protocol (Demo.cfg_at "localhost.example.com") = "http"
  /\ protocol (Demo.cfg_at "localhost.example.com")
     <> protocol_as_specified "localhost.example.com".
Proof. split; [|split]; vm_compute; [reflexivity | reflexivity | discriminate]. Qed.

Lemma authorized_state_mismatch_witness :
  (globalProfiles Demo.cfg !! params_name Demo.forged_callback = Some Demo.demo_profile
   /\ OAuth2State.check (Params.state Demo.cfg) (request Demo.forged_callback)
        (params_name Demo.forged_callback) (query Demo.forged_callback !! "state")
        (outside (Demo.world ∅ (Some "state-demo") Demo.json_reply 0))
      = (Ok false, Demo.outside_of ∅ None Demo.json_reply 0))
  /\ exists w',
      authorized_handler Demo.cfg Demo.platform Demo.redirect Demo.forged_callback
        (Demo.world ∅ (Some "state-demo") Demo.json_reply 0)
      = (Throw (Error "State missmatch"), w')
      /\ calls w' = [state_check () "demo" (Some "forged")]
      /\ forall made, calls w' = made ->
           Forall (fun c => is_storage_set c = false) made.
Proof.
  split; [split; reflexivity|].
  apply (authorized_state_mismatch Demo.cfg Demo.platform Demo.redirect
           Demo.forged_callback (Demo.world ∅ (Some "state-demo") Demo.json_reply 0)
           Demo.demo_profile (Demo.outside_of ∅ None Demo.json_reply 0));
    reflexivity.
Defined.

Lemma token_exchange_failure_witness :
  ((globalProfiles Demo.cfg !! params_name Demo.callback = Some Demo.demo_profile
    /\ OAuth2State.check (Params.state Demo.cfg) (request Demo.callback)
         (params_name Demo.callback) (query Demo.callback !! "state")
         (outside (Demo.world ∅ (Some "state-demo") Demo.error_reply 0))
       = (Ok true, Demo.outside_of ∅ None Demo.error_reply 0)
    /\ Platform.fetch Demo.platform "https://p/token"
         (token_request (token_body Demo.cfg Demo.demo_profile "demo" (Some "abc123")))
         (Demo.outside_of ∅ None Demo.error_reply 0)
       = (Ok Demo.error_reply, Demo.outside_of ∅ None Demo.error_reply 0)
    /\ Fetched.ok Demo.error_reply = false)
   /\ exists w',
       authorized_handler Demo.cfg Demo.platform Demo.redirect Demo.callback
         (Demo.world ∅ (Some "state-demo") Demo.error_reply 0)
       = (Throw (Error "401: Unauthorized: bad client"), w')
       /\ calls w' =
          [ state_check () "demo" (Some "state-demo");
            platform_fetch "https://p/token"
              (token_request
                 (token_body Demo.cfg Demo.demo_profile "demo" (Some "abc123"))) ]
       /\ (forall made, calls w' = made ->
             Forall (fun c => is_storage_set c = false) made
             /\ length (filter (fun c => is_fetch c = true) made) = 1%nat))
  /\ ((Fetched.ok Demo.html_reply = true
       /\ content_type_is_json Demo.html_reply = false)
      /\ exists w',
          authorized_handler Demo.cfg Demo.platform Demo.redirect Demo.callback
            (Demo.world ∅ (Some "state-demo") Demo.html_reply 0)
          = (Throw (Error "200: OK: <html></html>"), w')
          /\ calls w' =
             [ state_check () "demo" (Some "state-demo");
               platform_fetch "https://p/token"
                 (token_request
                    (token_body Demo.cfg Demo.demo_profile "demo" (Some "abc123"))) ]
          /\ (forall made, calls w' = made ->
                Forall (fun c => is_storage_set c = false) made
                /\ length (filter (fun c => is_fetch c = true) made) = 1%nat)).
Proof.
  split.
  - split; [repeat split; reflexivity|].
    apply (token_exchange_failure Demo.cfg Demo.platform Demo.redirect
             Demo.callback (Demo.world ∅ (Some "state-demo") Demo.error_reply 0)
             Demo.demo_profile (Demo.outside_of ∅ None Demo.error_reply 0)
             (Demo.outside_of ∅ None Demo.error_reply 0) Demo.error_reply);
      [reflexivity | reflexivity | reflexivity | left; reflexivity].
  - split; [split; reflexivity|].
    apply (token_exchange_failure Demo.cfg Demo.platform Demo.redirect
             Demo.callback (Demo.world ∅ (Some "state-demo") Demo.html_reply 0)
             Demo.demo_profile (Demo.outside_of ∅ None Demo.html_reply 0)
             (Demo.outside_of ∅ None Demo.html_reply 0) Demo.html_reply);
      [reflexivity | reflexivity | reflexivity | right; reflexivity].
Defined.

Lemma token_exchange_stores_witness :
  (globalProfiles Demo.cfg !! params_name Demo.callback = Some Demo.demo_profile
   /\ Fetched.ok Demo.json_reply = true
   /\ content_type_is_json Demo.json_reply = true
   /\ Fetched.json Demo.json_reply = Some Demo.token_json)
  /\ exists stored w',
      authorized_handler Demo.cfg Demo.platform Demo.redirect Demo.callback
        (Demo.world ∅ (Some "state-demo") Demo.json_reply 1700000000123)
      = (Ok (Demo.redirect "/"), w')
      /\ calls w' =
         [ state_check () "demo" (Some "state-demo");
           platform_fetch "https://p/token"
             (token_request
                (token_body Demo.cfg Demo.demo_profile "demo" (Some "abc123")));
           storage_set () "demo" stored ]
      /\ outside w' =
         snd (Storage.set Demo.storage () "demo" stored
                (Demo.outside_of ∅ None Demo.json_reply 1700000000123))
      /\ AccessToken.expires_in stored = 3600%Q
      /\ AccessToken.created_at stored = (inject_Z 1700000000123 / 1000)%Q
      /\ AccessToken.access_token stored = "tok"
      /\ AccessToken.token_type stored = "bearer"
      /\ AccessToken.scope stored = "read".
Proof.
  split; [repeat split; reflexivity|].
  apply (token_exchange_stores Demo.cfg Demo.platform Demo.redirect
           Demo.callback
           (Demo.world ∅ (Some "state-demo") Demo.json_reply 1700000000123)
           Demo.demo_profile
           (Demo.outside_of ∅ None Demo.json_reply 1700000000123)
           (Demo.outside_of ∅ None Demo.json_reply 1700000000123)
           Demo.json_reply Demo.token_json);
    reflexivity.
Defined.

Lemma isTokenValid_spec_witness :
  (seconds Demo.platform (Demo.world ∅ None Demo.json_reply 4600000)
   == AccessToken.created_at (Demo.token_of 1000 3600)
      + AccessToken.expires_in (Demo.token_of 1000 3600))%Q
  /\ exists b,
      isTokenValid Demo.platform (Some (Demo.token_of 1000 3600))
        (Demo.world ∅ None Demo.json_reply 4600000)
      = (Ok b, Demo.world ∅ None Demo.json_reply 4600000)
      /\ b = false.
Proof.
  assert (seconds Demo.platform (Demo.world ∅ None Demo.json_reply 4600000)
          == AccessToken.created_at (Demo.token_of 1000 3600)
             + AccessToken.expires_in (Demo.token_of 1000 3600))%Q as Hboundary
    by reflexivity.
  split; [exact Hboundary|].
  destruct (proj2 (isTokenValid_spec Demo.platform
                     (Demo.world ∅ None Demo.json_reply 4600000))
              (Demo.token_of 1000 3600)) as [b [Hrun [_ Hb]]].
  exists b. split; [exact Hrun | exact (Hb Hboundary)].
Defined.

Lemma redirect_uri_agreement_witness :
  params (auth (provider Demo.demo_profile)) !! "redirect_uri"
  = params (token (provider Demo.demo_profile)) !! "redirect_uri"
  /\ token_body Demo.cfg Demo.demo_profile "demo" (Some "abc123") !! "redirect_uri"
     = login_query Demo.cfg Demo.demo_profile "demo" "state-demo" !! "redirect_uri".
Proof.
  split; [reflexivity|].
  apply (redirect_uri_agreement Demo.cfg Demo.demo_profile "demo" "state-demo"
           (Some "abc123")).
  reflexivity.
Defined.

(** [ctx.authorized("demo", "other", "third")] when only [demo] holds a
    token: false, and [third] is never looked up. *)
Example ctx_authorized_short_circuit :
  ctx_authorized Demo.cfg Demo.platform () ["demo"; "other"; "third"]
    (Demo.world Demo.one_token None Demo.json_reply 2000000)
  = (Ok false,
     {| outside := Demo.outside_of Demo.one_token None Demo.json_reply 2000000;
        calls := [storage_get () "demo"; storage_get () "other"] |}).
Proof. vm_compute. reflexivity. Qed.

Lemma ctx_authorized_spec_witness :
  exists b w',
    ctx_authorized Demo.cfg Demo.platform () ["demo"; "other"; "third"]
      (Demo.world Demo.one_token None Demo.json_reply 2000000)
    = (Ok b, w')
    /\ (b = true <->
        forall profile, profile ∈ ["demo"; "other"; "third"] ->
          valid_at (seconds Demo.platform
                      (Demo.world Demo.one_token None Demo.json_reply 2000000))
            (Demo.one_token !! profile) = true)
    /\ (b = true ->
        calls w' = map (storage_get ()) ["demo"; "other"; "third"])
    /\ (forall before profile after,
          ["demo"; "other"; "third"] = before ++ profile :: after ->
          (forall q, q ∈ before ->
             valid_at (seconds Demo.platform
                         (Demo.world Demo.one_token None Demo.json_reply 2000000))
               (Demo.one_token !! q) = true) ->
          valid_at (seconds Demo.platform
                      (Demo.world Demo.one_token None Demo.json_reply 2000000))
            (Demo.one_token !! profile) = false ->
          b = false
          /\ calls w' = map (storage_get ()) (before ++ [profile])).
Proof.
  apply (ctx_authorized_spec Demo.cfg Demo.platform () ["demo"; "other"; "third"]
           (Demo.world Demo.one_token None Demo.json_reply 2000000)
           (fun profile => Demo.one_token !! profile)).
  intros profile _. reflexivity.
Defined.

(** ** Further properties of the handlers *)

Section HandlerTraces.

Context {Request W : Type}.
Variable cfg : TPluginParams Request W.
Variable platform : Platform.t W.
Variable buildUrl : string -> TUrlParams -> option TOAuth2Scope -> string.
Variable redirect : string -> Response.

Implicit Types (req : TProviderContext Request) (w : World Request W).
Implicit Types (name : string) (p : TOAuth2Profile).

(** The three ways the resolver can answer. *)
Lemma resolveProvider_cases name :
  (globalProfiles cfg !! name = None
   /\ (name ∉ Object_prototype_keys)
   /\ resolveProvider cfg name = AResponse NotFound)
  \/ (exists p, globalProfiles cfg !! name = Some p
                /\ resolveProvider cfg name = AValue (Own p))
  \/ (globalProfiles cfg !! name = None
      /\ (name ∈ Object_prototype_keys)
      /\ resolveProvider cfg name = AValue Inherited).
Proof.
  destruct (globalProfiles cfg !! name) as [p|] eqn:Hp.
  - right; left. exists p. split; [reflexivity|]. by apply resolveProvider_own.
  - destruct (decide (name ∈ Object_prototype_keys)) as [Hk|Hk].
    + right; right. auto using resolveProvider_inherited.
    + left. auto using resolveProvider_unknown.
Qed.

(** X1: the resolver answers 404 exactly for the names that are neither a
    key of the configured profiles nor the name of a member every object
    inherits from [Object.prototype]. *)
Theorem resolveProvider_not_found_iff name :
  resolveProvider cfg name = AResponse NotFound
  <-> globalProfiles cfg !! name = None /\ (name ∉ Object_prototype_keys).
Proof.
  split.
  - intros Hr.
    destruct (resolveProvider_cases name)
      as [(Hp & Hk & _) | [(p & _ & Hown) | (_ & _ & Hinh)]]; [auto| |].
    + rewrite Hown in Hr. discriminate.
    + rewrite Hinh in Hr. discriminate.
  - intros [Hp Hk]. by apply resolveProvider_unknown.
Qed.

(** X2: for a configured profile the login handler calls [state.generate]
    once and nothing else.  When it yields a state, the answer is the
    redirect to [buildUrl] of the provider's authorization URL, the merged
    query parameters with that state, and the profile's scope; when it
    throws, the exception is the handler's outcome. *)
Theorem login_handler_spec req w p :
  globalProfiles cfg !! params_name req = Some p ->
  login_handler cfg buildUrl redirect req w
  = match OAuth2State.generate (Params.state cfg) (request req) (params_name req)
            (outside w) with
    | (Ok st, o) =>
        (Ok (redirect (buildUrl (url (auth (provider p)))
                         (login_query cfg p (params_name req) st) (Some (scope p)))),
         {| outside := o;
            calls := calls w ++ [state_generate (request req) (params_name req)] |})
    | (Throw e, o) =>
        (Throw e,
         {| outside := o;
            calls := calls w ++ [state_generate (request req) (params_name req)] |})
    end.
Proof.
  intros Hp. unfold login_handler. rewrite (resolveProvider_own _ _ _ Hp).
  step. by destruct (OAuth2State.generate _ _ _ _) as [[st|e] o].
Qed.

(** X3: whatever the request, the login handler calls neither the token
    storage nor [fetch], nor [state.check]: the calls it makes are none at
    all, or the one [state.generate] for the requested name. *)
Theorem login_handler_calls req w :
  exists made,
    calls (snd (login_handler cfg buildUrl redirect req w)) = calls w ++ made
    /\ (made = [] \/ made = [state_generate (request req) (params_name req)]).
Proof.
  unfold login_handler.
  destruct (resolveProvider_cases (params_name req))
    as [(_ & _ & ->) | [(p & _ & ->) | (_ & _ & ->)]].
  - exists []. rewrite app_nil_r. auto.
  - step. eexists. split; [|right; reflexivity].
    by destruct (OAuth2State.generate _ _ _ _) as [[st|e] o].
  - exists []. rewrite app_nil_r. auto.
Qed.

(** X4: for a configured profile the logout handler calls
    [storage.delete] once and nothing else, whether or not a token is
    stored; it answers with the redirect to [redirectTo] when the deletion
    resolves and fails with the storage's exception when it rejects. *)
Theorem logout_handler_spec req w p :
  globalProfiles cfg !! params_name req = Some p ->
  logout_handler cfg redirect req w
  = match Storage.delete (Params.storage cfg) (request req) (params_name req)
            (outside w) with
    | (Ok _, o) =>
        (Ok (redirect (redirectTo cfg)),
         {| outside := o;
            calls := calls w ++ [storage_delete (request req) (params_name req)] |})
    | (Throw e, o) =>
        (Throw e,
         {| outside := o;
            calls := calls w ++ [storage_delete (request req) (params_name req)] |})
    end.
Proof.
  intros Hp. unfold logout_handler. rewrite (resolveProvider_own _ _ _ Hp).
  step. by destruct (Storage.delete _ _ _ _) as [[[]|e] o].
Qed.

(** Every way the authorized handler can run. *)
Lemma authorized_handler_cases req w :
  let check := state_check (request req) (params_name req) (query req !! "state") in
  let answer :=
    OAuth2State.check (Params.state cfg) (request req) (params_name req)
      (query req !! "state") (outside w) in
  authorized_handler cfg platform redirect req w = (Ok NotFound, w)
  \/ (exists e o,
        authorized_handler cfg platform redirect req w
        = (Throw e, {| outside := o; calls := calls w ++ [check] |})
        /\ (snd answer = o))
  \/ (exists p e o1 o2,
        globalProfiles cfg !! params_name req = Some p
        /\ answer = (Ok true, o1)
        /\ authorized_handler cfg platform redirect req w
           = (Throw e,
              {| outside := o2;
                 calls :=
                   calls w ++
                     [ check;
                       platform_fetch (url (token (provider p)))
                         (token_request
                            (token_body cfg p (params_name req) (query req !! "code"))) ] |}))
  \/ (exists p o1 o2 response json,
        globalProfiles cfg !! params_name req = Some p
        /\ answer = (Ok true, o1)
        /\ Platform.fetch platform (url (token (provider p)))
             (token_request (token_body cfg p (params_name req) (query req !! "code")))
             o1 = (Ok response, o2)
        /\ exchange_failed response = false
        /\ Fetched.json response = Some json
        /\ authorized_handler cfg platform redirect req w
           = (match fst (Storage.set (Params.storage cfg) (request req)
                           (params_name req)
                           (stamp json (Platform.Date_now platform o2)) o2) with
              | Ok _ => Ok (redirect (redirectTo cfg))
              | Throw e => Throw e
              end,
              {| outside :=
                   snd (Storage.set (Params.storage cfg) (request req)
                          (params_name req)
                          (stamp json (Platform.Date_now platform o2)) o2);
                 calls :=
                   calls w ++
                     [ check;
                       platform_fetch (url (token (provider p)))
                         (token_request
                            (token_body cfg p (params_name req) (query req !! "code")));
                       storage_set (request req) (params_name req)
                         (stamp json (Platform.Date_now platform o2)) ] |})).
Proof.
  intros check answer. subst check answer. unfold authorized_handler.
  destruct (resolveProvider_cases (params_name req))
    as [(_ & _ & ->) | [(p & Hp & ->) | (_ & _ & ->)]].
  - left. reflexivity.
  - right. step.
    destruct (OAuth2State.check _ _ _ _ _) as [[[]|e] o1] eqn:Hc; cbn [negb].
    2,3: left; step; do 2 eexists; split; reflexivity.
    right. step.
    fold (token_body cfg p (params_name req) (query req !! "code")).
    destruct (Platform.fetch platform _ _ o1) as [[response|e] o2] eqn:Hf;
      cbn beta iota; cbn [outside calls].
    2:{ left. exists p. do 3 eexists. split; [exact Hp|]. split; [reflexivity|].
        by rewrite <- app_assoc. }
    destruct (exchange_failed response) eqn:Hx.
    { left. exists p. do 3 eexists. split; [exact Hp|]. split; [reflexivity|].
      by rewrite <- app_assoc. }
    destruct (Fetched.json response) as [json|] eqn:Hj.
    + right. exists p, o1, o2, response, json.
      do 5 (split; [done|]). cbn beta iota. cbn [outside calls].
      destruct (Storage.set _ _ _ _ o2) as [[[]|e] o3]; cbn [fst snd];
        by rewrite <- !app_assoc.
    + left. exists p. do 3 eexists. split; [exact Hp|]. split; [reflexivity|].
      cbn [outside calls]. by rewrite <- app_assoc.
  - right. left. step.
    destruct (OAuth2State.check _ _ _ _ _) as [[[]|e] o1] eqn:Hc; cbn [negb];
      step; do 2 eexists; split; reflexivity.
Qed.

(** X5: the authorized handler answers without an exception in two ways
    only: with the 404 response, having called nothing, or with the
    redirect to [redirectTo], after the state check answered true, the
    token endpoint gave an accepted response whose body parsed, and the
    stamped token was handed to [storage.set] as the last of its three
    calls. *)
Theorem authorized_handler_ok req w r w' :
  authorized_handler cfg platform redirect req w = (Ok r, w') ->
  (r = NotFound /\ w' = w)
  \/ (r = redirect (redirectTo cfg)
      /\ exists p o1 o2 response json,
          globalProfiles cfg !! params_name req = Some p
          /\ OAuth2State.check (Params.state cfg) (request req) (params_name req)
               (query req !! "state") (outside w) = (Ok true, o1)
          /\ Platform.fetch platform (url (token (provider p)))
               (token_request (token_body cfg p (params_name req) (query req !! "code")))
               o1 = (Ok response, o2)
          /\ exchange_failed response = false
          /\ Fetched.json response = Some json
          /\ calls w' =
             calls w ++
               [ state_check (request req) (params_name req) (query req !! "state");
                 platform_fetch (url (token (provider p)))
                   (token_request
                      (token_body cfg p (params_name req) (query req !! "code")));
                 storage_set (request req) (params_name req)
                   (stamp json (Platform.Date_now platform o2)) ]).
Proof.
  intros Hrun.
  destruct (authorized_handler_cases req w)
    as [H | [(e & o & H & _) | [(p & e & o1 & o2 & _ & _ & H)
        | (p & o1 & o2 & response & json & Hp & Hc & Hf & Hx & Hj & H)]]];
    rewrite H in Hrun; try discriminate.
  - left. by injection Hrun as <- <-.
  - destruct (fst (Storage.set _ _ _ _ o2)); [|discriminate].
    right. injection Hrun as <- <-. split; [reflexivity|].
    exists p, o1, o2, response, json. auto 10.
Qed.

(** X6: whenever the authorized handler ends in an exception, either
    [storage.set] is not among the calls it has made - a state mismatch, a
    throwing state store, a rejected [fetch], a refused or unparsable
    response, a name that is not a profile - or [storage.set] is its last
    call and the exception is the one that very call threw. *)
Theorem authorized_handler_throw req w e w' :
  authorized_handler cfg platform redirect req w = (Throw e, w') ->
  forall made, calls w' = calls w ++ made ->
    Forall (fun c => is_storage_set c = false) made
    \/ exists before token o,
         made = before ++ [storage_set (request req) (params_name req) token]
         /\ Forall (fun c => is_storage_set c = false) before
         /\ fst (Storage.set (Params.storage cfg) (request req) (params_name req)
                   token o) = Throw e.
Proof.
  intros Hrun made Hmade.
  destruct (authorized_handler_cases req w)
    as [H | [(e' & o & H & _) | [(p & e' & o1 & o2 & _ & _ & H)
        | (p & o1 & o2 & response & json & _ & _ & _ & _ & _ & H)]]];
    rewrite H in Hrun; try discriminate.
  1,2: left; injection Hrun as <- <-; cbn [calls] in Hmade;
       apply app_inv_head in Hmade; subst made; repeat constructor.
  right.
  destruct (fst (Storage.set _ _ _ _ o2)) as [[]|e'] eqn:Hset; [discriminate|].
  injection Hrun as <- <-. cbn [calls] in Hmade.
  apply app_inv_head in Hmade. subst made.
  exists [ state_check (request req) (params_name req) (query req !! "state");
           platform_fetch (url (token (provider p)))
             (token_request
                (token_body cfg p (params_name req) (query req !! "code"))) ],
    (stamp json (Platform.Date_now platform o2)), o2.
  split; [reflexivity|]. split; [repeat constructor | exact Hset].
Qed.

(** X7: the authorized handler calls [fetch] only after [state.check]
    has answered true for the callback's state. *)
Theorem authorized_handler_fetch_gated req w :
  forall made,
    calls (snd (authorized_handler cfg platform redirect req w)) = calls w ++ made ->
    Exists (fun c => is_fetch c = true) made ->
    exists o1,
      OAuth2State.check (Params.state cfg) (request req) (params_name req)
        (query req !! "state") (outside w) = (Ok true, o1).
Proof.
  intros made Hmade Hfetch.
  destruct (authorized_handler_cases req w)
    as [H | [(e' & o & H & _) | [(p & e' & o1 & o2 & _ & Hc & H)
        | (p & o1 & o2 & response & json & _ & Hc & _ & _ & _ & H)]]];
    rewrite H in Hmade; cbn [snd calls] in Hmade; eauto.
  - rewrite <- (app_nil_r (calls w)) in Hmade at 1.
    apply app_inv_head in Hmade. subst made. by apply Exists_nil in Hfetch.
  - apply app_inv_head in Hmade. subst made.
    apply Exists_cons in Hfetch as [Hf|Hf]; [discriminate|].
    by apply Exists_nil in Hf.
Qed.

Lemma tokenParams_code client_id client_secret redirect_uri code :
  tokenParams client_id client_secret redirect_uri code !! "code"
  = Some (query_param code).
Proof. reflexivity. Qed.

(** X8: the callback's [code] is not required.  When the query has no
    [code] (and the provider's token parameters do not supply one), the
    handler still goes on to the token endpoint once the state check has
    passed, and the body it sends carries [code] as [undefined]. *)
Theorem authorized_handler_missing_code req w p o1 :
  globalProfiles cfg !! params_name req = Some p ->
  query req !! "code" = None ->
  params (token (provider p)) !! "code" = None ->
  OAuth2State.check (Params.state cfg) (request req) (params_name req)
    (query req !! "state") (outside w) = (Ok true, o1) ->
  exists sent rest,
    calls (snd (authorized_handler cfg platform redirect req w)) =
      calls w ++
        state_check (request req) (params_name req) (query req !! "state")
        :: platform_fetch (url (token (provider p))) (token_request sent)
        :: rest
    /\ sent !! "code" = Some PUndefined.
Proof.
  intros Hp Hcode Hparams Hc.
  destruct (authorized_handler_exchange cfg platform redirect req w p o1 Hp Hc)
    as (r & w' & Hrun & rest & Hcalls).
  rewrite Hrun. cbn [snd]. rewrite Hcode in Hcalls.
  exists (token_body cfg p (params_name req) None), rest.
  split; [exact Hcalls|].
  unfold token_body. by rewrite spread_lookup, Hparams, tokenParams_code.
Qed.

End HandlerTraces.

(** ** Further properties of the capabilities and of the parameter objects *)

Section CapabilityTraces.

Context {Request W : Type}.
Variable cfg : TPluginParams Request W.
Variable platform : Platform.t W.

Implicit Types (w : World Request W) (name : string) (p : TOAuth2Profile).

(** X9: [ctx.authorized] over a concatenated list is [ctx.authorized] of
    the first part and, only when that answered true, of the second part
    in the world the first part left; a false answer or an exception of
    the first part is the answer of the whole. *)
Theorem ctx_authorized_app request (l1 l2 : list string) w :
  ctx_authorized cfg platform request (l1 ++ l2) w
  = match ctx_authorized cfg platform request l1 w with
    | (Ok true, w1) => ctx_authorized cfg platform request l2 w1
    | other => other
    end.
Proof.
  revert w. induction l1 as [|profile l1 IH]; intros w; [reflexivity|].
  cbn [app ctx_authorized]. step.
  destruct (Storage.get _ _ _ _) as [[token|e] o]; [|reflexivity].
  rewrite isTokenValid_valid_at.
  destruct (valid_at _ token); cbn [negb]; [apply IH | reflexivity].
Qed.

(** X10: whatever the storage does, [ctx.authorized] calls nothing but
    [storage.get], for an initial segment of the listed profiles and in
    their order; when it answers true it has looked up every one of
    them. *)
Theorem ctx_authorized_calls request (profiles : list string) w :
  exists looked,
    looked `prefix_of` profiles
    /\ calls (snd (ctx_authorized cfg platform request profiles w))
       = calls w ++ map (storage_get request) looked
    /\ (fst (ctx_authorized cfg platform request profiles w) = Ok true ->
        looked = profiles).
Proof.
  revert w. induction profiles as [|profile rest IH]; intros w.
  - exists []. cbn. rewrite app_nil_r. auto.
  - cbn [ctx_authorized]. step.
    destruct (Storage.get _ _ _ _) as [[token|e] o].
    + rewrite isTokenValid_valid_at. destruct (valid_at _ token); cbn [negb].
      * destruct (IH {| outside := o;
                        calls := calls w ++ [storage_get request profile] |})
          as (looked & Hprefix & Hcalls & Hall).
        exists (profile :: looked). split; [by apply prefix_cons|].
        split.
        -- rewrite Hcalls. cbn [calls map]. by rewrite <- app_assoc.
        -- intros Htrue. by rewrite (Hall Htrue).
      * exists [profile]. split; [apply prefix_cons, prefix_nil|].
        split; [reflexivity | discriminate].
    + exists [profile]. split; [apply prefix_cons, prefix_nil|].
      split; [reflexivity | discriminate].
Qed.

(** X11: [ctx.profiles(...names)] with at least one name answers with an
    object whose own entries are those of the names given other than
    [__proto__], whether or not they are configured, each with the login
    and logout URI built for that name; for the name [__proto__] the
    assignment replaces the object's prototype with the entry and leaves
    no own entry.  The configured profiles are not consulted and no
    collaborator is called. *)
Theorem ctx_profiles_named (profiles : list string) w :
  profiles <> [] ->
  exists result,
    ctx_profiles cfg profiles w = (Ok result, w)
    /\ (forall name,
          own result !! name =
          if decide (name ∈ profiles /\ name <> "__proto__")
          then Some {| ProfileUrl.login := buildLoginUri cfg name true;
                       ProfileUrl.logout := buildLogoutUri cfg name true |}
          else None)
    /\ prototype result =
       if decide ("__proto__" ∈ profiles)
       then Some {| ProfileUrl.login := buildLoginUri cfg "__proto__" true;
                    ProfileUrl.logout := buildLogoutUri cfg "__proto__" true |}
       else None.
Proof.
  intros Hne. destruct profiles as [|profile rest]; [contradiction|].
  exists (fold_left
            (fun result k =>
               assign result k
                 {| ProfileUrl.login := buildLoginUri cfg k true;
                    ProfileUrl.logout := buildLogoutUri cfg k true |})
            (profile :: rest) empty_object).
  split; [reflexivity|]. split.
  - intros name.
    rewrite (fold_assign_own
               (fun k => {| ProfileUrl.login := buildLoginUri cfg k true;
                            ProfileUrl.logout := buildLogoutUri cfg k true |})).
    destruct (decide _); [reflexivity | apply lookup_empty].
  - apply (fold_assign_prototype
             (fun k => {| ProfileUrl.login := buildLoginUri cfg k true;
                          ProfileUrl.logout := buildLogoutUri cfg k true |})).
Qed.

(** X12: [ctx.tokenHeaders(profile)] looks the token up once and answers
    with [Bearer] followed by its access token, without reading the clock
    or checking the expiry; without a stored token the header is
    [Bearer undefined]; an exception of the storage is the outcome. *)
Theorem ctx_tokenHeaders_spec request (profile : string) w :
  ctx_tokenHeaders cfg request profile w
  = match Storage.get (Params.storage cfg) request profile (outside w) with
    | (Ok (Some t), o) =>
        (Ok ("Bearer " +:+ AccessToken.access_token t),
         {| outside := o; calls := calls w ++ [storage_get request profile] |})
    | (Ok None, o) =>
        (Ok "Bearer undefined",
         {| outside := o; calls := calls w ++ [storage_get request profile] |})
    | (Throw e, o) =>
        (Throw e,
         {| outside := o; calls := calls w ++ [storage_get request profile] |})
    end.
Proof.
  unfold ctx_tokenHeaders. step.
  by destruct (Storage.get _ _ _ _) as [[[t|]|e] o].
Qed.


Lemma authParams_lookup client_id client_secret redirect_uri st (key : string) :
  authParams client_id client_secret redirect_uri st !! key
  = if decide (key = "client_id") then Some (PString client_id)
    else if decide (key = "client_secret") then Some (PString client_secret)
    else if decide (key = "redirect_uri") then Some (PString redirect_uri)
    else if decide (key = "response_type") then Some (PString "code")
    else if decide (key = "response_mode") then Some (PString "query")
    else if decide (key = "state") then Some (PString st)
    else None.
Proof.
  repeat (case_decide; [subst key; reflexivity|]).
  unfold authParams. cbn [list_to_map foldr fst snd].
  rewrite !lookup_insert_ne by congruence. apply lookup_empty.
Qed.

Lemma tokenParams_lookup client_id client_secret redirect_uri code (key : string) :
  tokenParams client_id client_secret redirect_uri code !! key
  = if decide (key = "client_id") then Some (PString client_id)
    else if decide (key = "client_secret") then Some (PString client_secret)
    else if decide (key = "redirect_uri") then Some (PString redirect_uri)
    else if decide (key = "grant_type") then Some (PString "authorization_code")
    else if decide (key = "code") then Some (query_param code)
    else None.
Proof.
  repeat (case_decide; [subst key; reflexivity|]).
  unfold tokenParams. cbn [list_to_map foldr fst snd].
  rewrite !lookup_insert_ne by congruence. apply lookup_empty.
Qed.

(** X14: the query parameters the login handler hands to [buildUrl].  A
    key the provider's authorization parameters define has the provider's
    value; otherwise [client_id] and [client_secret] are the provider's
    credentials, [redirect_uri] the callback URI of the name,
    [response_type] is [code], [response_mode] is [query], [state] the
    generated state; there is no other key. *)
Theorem login_query_lookup p name st (key : string) :
  login_query cfg p name st !! key
  = match params (auth (provider p)) !! key with
    | Some v => Some v
    | None =>
        if decide (key = "client_id") then Some (PString (clientId (provider p)))
        else if decide (key = "client_secret")
        then Some (PString (clientSecret (provider p)))
        else if decide (key = "redirect_uri")
        then Some (PString (buildRedirectUri cfg name))
        else if decide (key = "response_type") then Some (PString "code")
        else if decide (key = "response_mode") then Some (PString "query")
        else if decide (key = "state") then Some (PString st)
        else None
    end.
Proof.
  unfold login_query. rewrite spread_lookup.
  destruct (params (auth (provider p)) !! key); [reflexivity|].
  apply authParams_lookup.
Qed.

(** X15: the parameters of the token request body.  A key the provider's
    token parameters define has the provider's value; otherwise
    [client_id] and [client_secret] are the provider's credentials,
    [redirect_uri] the callback URI of the name, [grant_type] is
    [authorization_code], [code] the callback's code ([undefined] when the
    query has none); there is no other key. *)
Theorem token_body_lookup p name code (key : string) :
  token_body cfg p name code !! key
  = match params (token (provider p)) !! key with
    | Some v => Some v
    | None =>
        if decide (key = "client_id") then Some (PString (clientId (provider p)))
        else if decide (key = "client_secret")
        then Some (PString (clientSecret (provider p)))
        else if decide (key = "redirect_uri")
        then Some (PString (buildRedirectUri cfg name))
        else if decide (key = "grant_type") then Some (PString "authorization_code")
        else if decide (key = "code")
        then Some (match code with Some c => PString c | None => PUndefined end)
        else None
    end.
Proof.
  unfold token_body. rewrite spread_lookup.
  destruct (params (token (provider p)) !! key); [reflexivity|].
  apply tokenParams_lookup.
Qed.

End CapabilityTraces.

(** ** The URI helpers and the token's life cycle *)

Lemma append_empty_r (s : string) : s +:+ "" = s.
Proof.
  induction s as [|c s IH]; [reflexivity|].
  change (String c (s +:+ "") = String c s). by rewrite IH.
Qed.

(** A replacement text without [$] is inserted as it is. *)
Lemma GetSubstitution_plain (matched before after template : string) :
  mentions_dollar template = false ->
  GetSubstitution matched before after template = template.
Proof.
  induction template as [|c rest IH]; [reflexivity|].
  cbn [mentions_dollar GetSubstitution]. intros [Hc Hrest]%orb_false_iff.
  rewrite Hc. by rewrite IH.
Qed.

Lemma replace_plain (s pattern replacement : string) (pos : nat) :
  String.index 0 pattern s = Some pos ->
  mentions_dollar replacement = false ->
  replace s pattern replacement
  = String.substring 0 pos s +:+ replacement +:+
    String.substring (pos + String.length pattern)
      (String.length s - (pos + String.length pattern)) s.
Proof.
  intros Hpos Hplain. unfold replace. rewrite Hpos.
  by rewrite GetSubstitution_plain.
Qed.

Section Lifecycle.

Context {Request W : Type}.
Variable cfg : TPluginParams Request W.
Variable platform : Platform.t W.
Variable redirect : string -> Response.

Implicit Types (req : TProviderContext Request) (w : World Request W).
Implicit Types (name : string) (p : TOAuth2Profile).

(** X16: with the default path templates and a profile name without [$],
    the external login, logout and callback URIs are
    [protocol://host/login/<name>], [protocol://host/logout/<name>] and
    [protocol://host/login/<name>/authorized]. *)
Theorem default_uris name :
  Params.login cfg = None ->
  Params.logout cfg = None ->
  Params.authorized cfg = None ->
  mentions_dollar name = false ->
  buildLoginUri cfg name true
  = protocol cfg +:+ "://" +:+ host cfg +:+ "/login/" +:+ name
  /\ buildLogoutUri cfg name true
     = protocol cfg +:+ "://" +:+ host cfg +:+ "/logout/" +:+ name
  /\ buildRedirectUri cfg name
     = protocol cfg +:+ "://" +:+ host cfg +:+ "/login/" +:+ name +:+ "/authorized".
Proof.
  intros Hlogin Hlogout Hauthorized Hplain.
  unfold buildLoginUri, buildLogoutUri, buildRedirectUri, buildUri,
    login, logout, authorized, or_default.
  rewrite Hlogin, Hlogout, Hauthorized. cbn [falsy from_option].
  rewrite (replace_plain "/login/:name" ":name" name 7) by (reflexivity || assumption).
  rewrite (replace_plain "/logout/:name" ":name" name 8) by (reflexivity || assumption).
  rewrite (replace_plain "/login/:name/authorized" ":name" name 7)
    by (reflexivity || assumption).
  cbn [String.substring String.length Nat.add Nat.sub String.append].
  by rewrite append_empty_r.
Qed.


(** X18: logout, then [ctx.authorized].  After the logout of a configured
    profile, over a storage that finds no token where one was just
    deleted, [ctx.authorized(name)] answers false. *)
Theorem logout_then_authorized req w p o :
  globalProfiles cfg !! params_name req = Some p ->
  Storage.delete (Params.storage cfg) (request req) (params_name req) (outside w)
  = (Ok (), o) ->
  fst (Storage.get (Params.storage cfg) (request req) (params_name req) o) = Ok None ->
  exists w1 w2,
    logout_handler cfg redirect req w = (Ok (redirect (redirectTo cfg)), w1)
    /\ ctx_authorized cfg platform (request req) [params_name req] w1 = (Ok false, w2)
    /\ calls w2 =
       calls w ++ [ storage_delete (request req) (params_name req);
                    storage_get (request req) (params_name req) ].
Proof.
  intros Hp Hdelete Hget.
  destruct (Storage.get (Params.storage cfg) (request req) (params_name req) o)
    as [r o'] eqn:Hg.
  cbn [fst] in Hget. subst r.
  unfold logout_handler. rewrite (resolveProvider_own _ _ _ Hp).
  step. rewrite Hdelete. cbn beta iota.
  do 2 eexists. split; [reflexivity|].
  cbn [ctx_authorized]. step. rewrite Hg.
  cbn beta iota. unfold isTokenValid. step.
  split; [reflexivity|]. cbn [calls]. by rewrite <- app_assoc.
Qed.

End Lifecycle.

Section HandlerCalls.

Context {Request W : Type}.
Variable cfg : TPluginParams Request W.
Variable platform : Platform.t W.
Variable redirect : string -> Response.

Implicit Types (req : TProviderContext Request) (w : World Request W).

(** X19: whatever the request, the logout handler calls neither the state
    store nor [fetch], nor [storage.set] or [storage.get]: the calls it
    makes are none at all, or the one [storage.delete] for the requested
    name. *)
Theorem logout_handler_calls req w :
  exists made,
    calls (snd (logout_handler cfg redirect req w)) = calls w ++ made
    /\ (made = [] \/ made = [storage_delete (request req) (params_name req)]).
Proof.
  unfold logout_handler.
  destruct (resolveProvider_cases cfg (params_name req))
    as [(_ & _ & ->) | [(p & _ & ->) | (_ & _ & ->)]].
  - exists []. rewrite app_nil_r. auto.
  - step. eexists. split; [|right; reflexivity].
    by destruct (Storage.delete _ _ _ _) as [[[]|e] o].
  - step. eexists. split; [|right; reflexivity].
    by destruct (Storage.delete _ _ _ _) as [[[]|e] o].
Qed.

(** X20: whatever the request, the authorized handler calls its
    collaborators at most once each and in one order: [state.check] for
    the requested name and the callback's state, then [fetch], then
    [storage.set] for the requested name; it calls neither
    [state.generate] nor [storage.get] nor [storage.delete]. *)
Theorem authorized_handler_calls req w :
  exists made resource init token,
    calls (snd (authorized_handler cfg platform redirect req w)) = calls w ++ made
    /\ made `prefix_of`
         [ state_check (request req) (params_name req) (query req !! "state");
           platform_fetch resource init;
           storage_set (request req) (params_name req) token ].
Proof.
  pose (nothing := {| AccessToken.token_type := ""; AccessToken.scope := "";
                      AccessToken.expires_in := 0%Q; AccessToken.access_token := "";
                      AccessToken.created_at := 0%Q |}).
  destruct (authorized_handler_cases cfg platform redirect req w)
    as [H | [(e & o & H & _) | [(p & e & o1 & o2 & _ & _ & H)
        | (p & o1 & o2 & response & json & _ & _ & _ & _ & _ & H)]]];
    rewrite H; cbn [snd calls].
  - exists [], "", (token_request ∅), nothing.
    rewrite app_nil_r. split; [reflexivity | apply prefix_nil].
  - exists [state_check (request req) (params_name req) (query req !! "state")],
      "", (token_request ∅), nothing.
    split; [reflexivity | apply prefix_cons, prefix_nil].
  - eexists _, _, _, nothing. split; [reflexivity|].
    apply prefix_cons, prefix_cons, prefix_nil.
  - eexists _, _, _, _. split; [reflexivity|]. reflexivity.
Qed.

End HandlerCalls.

(** ** The further properties on concrete requests *)

Lemma login_handler_spec_witness :
  globalProfiles Demo.cfg !! "demo" = Some Demo.demo_profile
  /\ login_handler Demo.cfg Demo.buildUrl Demo.redirect (Demo.get_request "demo" [])
       (Demo.world ∅ None Demo.json_reply 0)
     = (Ok (Demo.redirect
              (Demo.buildUrl "https://p/authorize"
                 (login_query Demo.cfg Demo.demo_profile "demo" "state-demo")
                 (Some ["read"]))),
        {| outside := Demo.outside_of ∅ (Some "state-demo") Demo.json_reply 0;
           calls := [state_generate () "demo"] |}).
Proof.
  split; [reflexivity|].
  apply (login_handler_spec Demo.cfg Demo.buildUrl Demo.redirect
           (Demo.get_request "demo" []) (Demo.world ∅ None Demo.json_reply 0)
           Demo.demo_profile).
  reflexivity.
Defined.

Lemma logout_handler_spec_witness :
  globalProfiles Demo.cfg !! "demo" = Some Demo.demo_profile
  /\ logout_handler Demo.cfg Demo.redirect (Demo.get_request "demo" [])
       (Demo.world Demo.one_token None Demo.json_reply 0)
     = (Ok (Demo.redirect "/"),
        {| outside := Demo.outside_of (delete "demo" Demo.one_token) None Demo.json_reply 0;
           calls := [storage_delete () "demo"] |}).
Proof.
  split; [reflexivity|].
  apply (logout_handler_spec Demo.cfg Demo.redirect (Demo.get_request "demo" [])
           (Demo.world Demo.one_token None Demo.json_reply 0) Demo.demo_profile).
  reflexivity.
Defined.

Lemma authorized_handler_ok_witness :
  exists w',
    authorized_handler Demo.cfg Demo.platform Demo.redirect Demo.callback
      (Demo.world ∅ (Some "state-demo") Demo.json_reply 1700000000123)
    = (Ok (Demo.redirect "/"), w')
    /\ ((Demo.redirect "/" = NotFound
         /\ w' = Demo.world ∅ (Some "state-demo") Demo.json_reply 1700000000123)
        \/ (Demo.redirect "/" = Demo.redirect (redirectTo Demo.cfg)
            /\ exists p o1 o2 response json,
                globalProfiles Demo.cfg !! "demo" = Some p
                /\ OAuth2State.check Demo.state () "demo" (Some "state-demo")
                     (Demo.outside_of ∅ (Some "state-demo") Demo.json_reply 1700000000123)
                   = (Ok true, o1)
                /\ Platform.fetch Demo.platform (url (token (provider p)))
                     (token_request (token_body Demo.cfg p "demo" (Some "abc123"))) o1
                   = (Ok response, o2)
                /\ exchange_failed response = false
                /\ Fetched.json response = Some json
                /\ calls w' =
                   [ state_check () "demo" (Some "state-demo");
                     platform_fetch (url (token (provider p)))
                       (token_request (token_body Demo.cfg p "demo" (Some "abc123")));
                     storage_set () "demo"
                       (stamp json (Platform.Date_now Demo.platform o2)) ])).
Proof.
  exists (snd (authorized_handler Demo.cfg Demo.platform Demo.redirect Demo.callback
                 (Demo.world ∅ (Some "state-demo") Demo.json_reply 1700000000123))).
  split; [reflexivity|].
  apply (authorized_handler_ok Demo.cfg Demo.platform Demo.redirect Demo.callback
           (Demo.world ∅ (Some "state-demo") Demo.json_reply 1700000000123)).
  reflexivity.
Defined.

Lemma authorized_handler_throw_witness :
  exists w',
    authorized_handler Demo.cfg_throwing Demo.platform Demo.redirect Demo.callback
      (Demo.world ∅ (Some "state-demo") Demo.json_reply 0)
    = (Throw (Error "storage is read-only"), w')
    /\ (Forall (fun c => is_storage_set c = false) (calls w')
        \/ exists before token o,
             calls w' = before ++ [storage_set () "demo" token]
             /\ Forall (fun c => is_storage_set c = false) before
             /\ fst (Storage.set Demo.throwing_storage () "demo" token o)
                = Throw (Error "storage is read-only")).
Proof.
  exists (snd (authorized_handler Demo.cfg_throwing Demo.platform Demo.redirect
                 Demo.callback
                 (Demo.world ∅ (Some "state-demo") Demo.json_reply 0))).
  split; [reflexivity|].
  apply (authorized_handler_throw Demo.cfg_throwing Demo.platform Demo.redirect
           Demo.callback (Demo.world ∅ (Some "state-demo") Demo.json_reply 0)
           (Error "storage is read-only") _ eq_refl).
  reflexivity.
Defined.

Lemma authorized_handler_fetch_gated_witness :
  Exists (fun c : Call unit => is_fetch c = true)
    [ state_check () "demo" (Some "state-demo");
      platform_fetch "https://p/token"
        (token_request (token_body Demo.cfg Demo.demo_profile "demo" (Some "abc123"))) ]
  /\ exists o1,
      OAuth2State.check Demo.state () "demo" (Some "state-demo")
        (Demo.outside_of ∅ (Some "state-demo") Demo.error_reply 0)
      = (Ok true, o1).
Proof.
  assert (Exists (fun c : Call unit => is_fetch c = true)
            [ state_check () "demo" (Some "state-demo");
              platform_fetch "https://p/token"
                (token_request
                   (token_body Demo.cfg Demo.demo_profile "demo" (Some "abc123"))) ])
    as Hfetch by (right; left; reflexivity).
  split; [exact Hfetch|].
  exact (authorized_handler_fetch_gated Demo.cfg Demo.platform Demo.redirect
           Demo.callback (Demo.world ∅ (Some "state-demo") Demo.error_reply 0)
           _ eq_refl Hfetch).
Defined.

Lemma authorized_handler_missing_code_witness :
  query (Demo.get_request "demo" [("state", "state-demo")]) !! "code" = None
  /\ exists sent rest,
      calls (snd (authorized_handler Demo.cfg Demo.platform Demo.redirect
                    (Demo.get_request "demo" [("state", "state-demo")])
                    (Demo.world ∅ (Some "state-demo") Demo.json_reply 0)))
      = state_check () "demo" (Some "state-demo")
        :: platform_fetch "https://p/token" (token_request sent) :: rest
      /\ sent !! "code" = Some PUndefined.
Proof.
  split; [reflexivity|].
  apply (authorized_handler_missing_code Demo.cfg Demo.platform Demo.redirect
           (Demo.get_request "demo" [("state", "state-demo")])
           (Demo.world ∅ (Some "state-demo") Demo.json_reply 0)
           Demo.demo_profile (Demo.outside_of ∅ None Demo.json_reply 0));
    reflexivity.
Defined.

Lemma ctx_profiles_named_witness :
  globalProfiles Demo.cfg !! "elsewhere" = None
  /\ exists result,
      ctx_profiles Demo.cfg ["elsewhere"; "__proto__"]
        (Demo.world ∅ None Demo.json_reply 0)
      = (Ok result, Demo.world ∅ None Demo.json_reply 0)
      /\ (forall name,
            own result !! name =
            if decide (name ∈ ["elsewhere"; "__proto__"] /\ name <> "__proto__")
            then Some {| ProfileUrl.login := buildLoginUri Demo.cfg name true;
                         ProfileUrl.logout := buildLogoutUri Demo.cfg name true |}
            else None)
      /\ prototype result =
         Some {| ProfileUrl.login := "http://localhost:3000/login/__proto__";
                 ProfileUrl.logout := "http://localhost:3000/logout/__proto__" |}.
Proof.
  split; [reflexivity|].
  apply (ctx_profiles_named Demo.cfg ["elsewhere"; "__proto__"]
           (Demo.world ∅ None Demo.json_reply 0)).
  discriminate.
Defined.


Lemma default_uris_witness :
  mentions_dollar "demo" = false
  /\ buildLoginUri Demo.cfg "demo" true = "http://localhost:3000/login/demo"
  /\ buildLogoutUri Demo.cfg "demo" true = "http://localhost:3000/logout/demo"
  /\ buildRedirectUri Demo.cfg "demo" = "http://localhost:3000/login/demo/authorized".
Proof.
  split; [reflexivity|].
  apply (default_uris Demo.cfg "demo"); reflexivity.
Defined.


Lemma logout_then_authorized_witness :
  exists w1 w2,
    logout_handler Demo.cfg Demo.redirect (Demo.get_request "demo" [])
      (Demo.world Demo.one_token None Demo.json_reply 2000000)
    = (Ok (Demo.redirect "/"), w1)
    /\ ctx_authorized Demo.cfg Demo.platform () ["demo"] w1 = (Ok false, w2)
    /\ calls w2 = [storage_delete () "demo"; storage_get () "demo"].
Proof.
  apply (logout_then_authorized Demo.cfg Demo.platform Demo.redirect
           (Demo.get_request "demo" [])
           (Demo.world Demo.one_token None Demo.json_reply 2000000)
           Demo.demo_profile
           (Demo.outside_of (delete "demo" Demo.one_token) None Demo.json_reply 2000000));
    reflexivity.
Defined.
